(** * RFP bid assessment tool: the three model-backed stages and the page
      that drives them

    A shallow embedding of the route handlers under [src/app/api] and of the
    state handling of [src/app/page.tsx], with the properties the design
    document states about them.

    Conventions of the embedding.
    - JavaScript values are the trees of [Js.value]; numbers are binary64
      floats in the representation of the standard library ([spec_float]).
    - A text handed to [JSON.parse] is represented by what [JSON.parse] makes
      of it ([Js.text]): either the value it returns or the fact that it
      throws.  [JSON.stringify] followed by [JSON.parse] is the identity on
      the values that flow through the program (they all come from decoded
      JSON).
    - An exception is an explicit outcome; [try]/[catch]/[finally] are
      combinators on computations that also record the calls made to the
      blob store, to the model and to [console.error]. *)

From Stdlib Require Import ZArith Bool Lia Ascii.
From Stdlib Require Import QArith Qpower Lqa.
From Stdlib Require Import Floats.SpecFloat.
From stdpp Require Import base option list strings pretty gmap.

Local Close Scope Q_scope.
Local Open Scope string_scope.
Local Set Warnings "-register-all".

(** ** JavaScript values *)

Module Js.

(** Binary64, the number type of the language. *)
Definition prec : Z := 53.
Definition emax : Z := 1024.

Definition number := spec_float.

Definition of_Z (z : Z) : number := binary_normalize prec emax z 0 false.
Definition of_nat (n : nat) : number := of_Z (Z.of_nat n).
Definition fdiv : number → number → number := SFdiv prec emax.
Definition fmul : number → number → number := SFmul prec emax.

Definition is_nan (x : number) : bool :=
  match x with S754_nan => true | _ => false end.

Definition is_finite (x : number) : bool :=
  match x with S754_zero _ | S754_finite _ _ _ => true | _ => false end.

Inductive value : Type :=
| VUndefined
| VNull
| VBool (b : bool)
| VNum (x : number)
| VStr (s : string)
| VArr (xs : list value)
| VObj (fields : list (string * value)).

(** The first binding of a key; objects are built with distinct keys. *)
Fixpoint assoc {A} (k : string) (fs : list (string * A)) : option A :=
  match fs with
  | [] => None
  | (k', v) :: rest => if String.eqb k k' then Some v else assoc k rest
  end.

(** What is thrown.  [TypeError] is an [Error]; [Thrown] stands for a value
    that is not an instance of [Error]. *)
Inductive exn : Type :=
| Error (message : string)
| TypeError (message : string)
| SyntaxError (message : string)
| Thrown (v : value).

(** [e instanceof Error ? e.message : fallback] *)
Definition message_or (fallback : string) (e : exn) : string :=
  match e with
  | Error m | TypeError m | SyntaxError m => m
  | Thrown _ => fallback
  end.

Inductive outcome (A : Type) : Type :=
| Ret (a : A)
| Throw (e : exn).
Arguments Ret {A} a.
Arguments Throw {A} e.

(** ToBoolean *)
Definition truthy (v : value) : bool :=
  match v with
  | VUndefined | VNull => false
  | VBool b => b
  | VNum (S754_zero _) | VNum S754_nan => false
  | VNum _ => true
  | VStr s => negb (String.eqb s "")
  | VArr _ | VObj _ => true
  end.

(** A text on its way to [JSON.parse]. *)
Inductive text : Type :=
| Unparseable (raw : string)
| Json (v : value).

Definition JSON_parse (t : text) : outcome value :=
  match t with
  | Unparseable _ => Throw (SyntaxError "Unexpected token in JSON")
  | Json v => Ret v
  end.

(** What [JSON.stringify] keeps of a value: an [undefined] entry of an
    object is left out, an [undefined] element of an array and a number
    that is not finite become [null], a negative zero loses its sign. *)
Fixpoint jsonify (v : value) : value :=
  match v with
  | VNum (S754_zero _) => VNum (S754_zero false)
  | VNum (S754_finite s m e) => v
  | VNum _ => VNull
  | VUndefined => VNull
  | VArr xs => VArr (map jsonify xs)
  | VObj fs =>
      VObj
        ((fix go (l : list (string * value)) : list (string * value) :=
            match l with
            | [] => []
            | (k, VUndefined) :: rest => go rest
            | (k, x) :: rest => (k, jsonify x) :: go rest
            end) fs)
  | _ => v
  end.

(** The string [JSON.stringify(v)] yields, as the reader of that string
    sees it; for [undefined] there is no string, and the consumers here
    (a form field) turn that into the text ["undefined"]. *)
Definition JSON_stringify (v : value) : text :=
  match v with
  | VUndefined => Unparseable "undefined"
  | _ => Json (jsonify v)
  end.

(** [Object.is] on values held in React state: two primitives are compared;
    an array or an object put into the state is a new one each time. *)
Definition Object_is (a b : value) : bool :=
  match a, b with
  | VUndefined, VUndefined | VNull, VNull => true
  | VBool x, VBool y => Bool.eqb x y
  | VStr x, VStr y => String.eqb x y
  | VNum x, VNum y =>
      match x, y with
      | S754_zero s, S754_zero s' | S754_infinity s, S754_infinity s' => Bool.eqb s s'
      | S754_nan, S754_nan => true
      | S754_finite s m e, S754_finite s' m' e' =>
          Bool.eqb s s' && Pos.eqb m m' && Z.eqb e e'
      | _, _ => false
      end
  | _, _ => false
  end.

(** A string is truthy unless it is empty; a text that parses is not empty. *)
Definition text_truthy (t : text) : bool :=
  match t with
  | Unparseable raw => negb (String.eqb raw "")
  | Json _ => true
  end.

(** The integer a finite number denotes, if it denotes one. *)
Definition to_Z (x : number) : option Z :=
  match x with
  | S754_zero _ => Some 0%Z
  | S754_finite s m e =>
      let signed (z : Z) := if s then Z.opp z else z in
      match e with
      | Z0 => Some (signed (Zpos m))
      | Zpos p => Some (signed (Zpos m * Z.pow_pos 2 p)%Z)
      | Zneg p =>
          if (Zpos m mod Z.pow_pos 2 p =? 0)%Z
          then Some (signed (Zpos m / Z.pow_pos 2 p)%Z)
          else None
      end
  | _ => None
  end.

(** [Math.round]: the integer nearest to [x], the larger one of two equally
    near; a number without fractional bits, an infinity and NaN are returned
    as they are, and the sign of [x] is kept on a zero result. *)
Definition Math_round (x : number) : number :=
  match x with
  | S754_finite s m (Zneg p) =>
      let twice := if s then Z.opp (2 * Zpos m) else (2 * Zpos m)%Z in
      binary_normalize prec emax
        ((twice + Z.pow_pos 2 p) / Z.pow_pos 2 (p + 1))%Z 0 s
  | _ => x
  end.

(** The parts of the runtime that depend on the engine and its locale. *)
Class Engine := {
  (** [x.toLocaleString()] *)
  Number_toLocaleString : number → string;
  (** the digits [String(x)] prints for a finite [x] that is not an integer
      below 10^21 *)
  Number_toString_other : number → string;
  (** ToNumber on a string *)
  StringToNumber : string → number;
  (** whether [new URL(s)] accepts [s] *)
  URL_canParse : string → bool;
  (** the number of code units of a string, and its characters as [...s]
      yields them *)
  String_length : string → nat;
  String_chars : string → list string;
}.

Section WithEngine.
Context `{!Engine}.

(** [v.k] for the keys the program reads ([title], [requirements],
    [length], ...): own properties of objects, [length] of arrays and
    strings, [undefined] otherwise; reading a property of [null] or
    [undefined] throws. *)
Definition get (v : value) (k : string) : outcome value :=
  match v with
  | VUndefined =>
      Throw (TypeError ("Cannot read properties of undefined (reading '" +:+ k +:+ "')"))
  | VNull =>
      Throw (TypeError ("Cannot read properties of null (reading '" +:+ k +:+ "')"))
  | VObj fs => Ret (default VUndefined (assoc k fs))
  | VArr xs =>
      Ret (if String.eqb k "length" then VNum (of_nat (length xs)) else VUndefined)
  | VStr s =>
      Ret (if String.eqb k "length" then VNum (of_nat (String_length s)) else VUndefined)
  | VBool _ | VNum _ => Ret VUndefined
  end.

(** [...v]: the elements of an array, the characters of a string; nothing
    else that can be held here is iterable. *)
Definition spread (what : string) (v : value) : outcome (list value) :=
  match v with
  | VArr xs => Ret xs
  | VStr s => Ret (VStr <$> String_chars s)
  | _ => Throw (TypeError (what +:+ " is not iterable"))
  end.

(** Number::toString, radix 10 *)
Definition Number_toString (x : number) : string :=
  match x with
  | S754_nan => "NaN"
  | S754_infinity false => "Infinity"
  | S754_infinity true => "-Infinity"
  | _ =>
      match to_Z x with
      | Some z =>
          if (Z.abs z <? 10 ^ 21)%Z then pretty z else Number_toString_other x
      | None => Number_toString_other x
      end
  end.

(** ToString, as a template literal applies it to a substitution.  An array
    prints its elements separated by commas, [null] and [undefined] as
    nothing; an object prints as ["[object Object]"], unless an own
    [toString] entry (never a function in decoded JSON) hides the inherited
    method, in which case the conversion throws. *)
Fixpoint ToString (v : value) : outcome string :=
  match v with
  | VUndefined => Ret "undefined"
  | VNull => Ret "null"
  | VBool true => Ret "true"
  | VBool false => Ret "false"
  | VNum x => Ret (Number_toString x)
  | VStr s => Ret s
  | VArr xs =>
      match
        (fix go (l : list value) : outcome (list string) :=
           match l with
           | [] => Ret []
           | x :: rest =>
               match
                 match x with
                 | VUndefined | VNull => Ret ""
                 | _ => ToString x
                 end
               with
               | Ret y =>
                   match go rest with
                   | Ret ys => Ret (y :: ys)
                   | Throw e => Throw e
                   end
               | Throw e => Throw e
               end
           end) xs
      with
      | Ret ss => Ret (String.concat "," ss)
      | Throw e => Throw e
      end
  | VObj fs =>
      match assoc "toString" fs with
      | Some _ => Throw (TypeError "Cannot convert object to primitive value")
      | None => Ret "[object Object]"
      end
  end.

(** [v.toLocaleString()] *)
Fixpoint toLocaleString (v : value) : outcome string :=
  match v with
  | VUndefined =>
      Throw (TypeError "Cannot read properties of undefined (reading 'toLocaleString')")
  | VNull =>
      Throw (TypeError "Cannot read properties of null (reading 'toLocaleString')")
  | VBool _ => ToString v
  | VNum x => Ret (Number_toLocaleString x)
  | VStr s => Ret s
  | VArr xs =>
      match
        (fix go (l : list value) : outcome (list string) :=
           match l with
           | [] => Ret []
           | x :: rest =>
               match
                 match x with
                 | VUndefined | VNull => Ret ""
                 | _ => toLocaleString x
                 end
               with
               | Ret y =>
                   match go rest with
                   | Ret ys => Ret (y :: ys)
                   | Throw e => Throw e
                   end
               | Throw e => Throw e
               end
           end) xs
      with
      | Ret ss => Ret (String.concat "," ss)
      | Throw e => Throw e
      end
  | VObj fs =>
      match assoc "toLocaleString" fs with
      | Some _ => Throw (TypeError "toLocaleString is not a function")
      | None => ToString v
      end
  end.

(** ToNumber *)
Definition ToNumber (v : value) : outcome number :=
  match v with
  | VUndefined => Ret S754_nan
  | VNull => Ret (S754_zero false)
  | VBool true => Ret (of_Z 1)
  | VBool false => Ret (S754_zero false)
  | VNum x => Ret x
  | VStr s => Ret (StringToNumber s)
  | VArr _ | VObj _ =>
      match ToString v with
      | Ret s => Ret (StringToNumber s)
      | Throw e => Throw e
      end
  end.

(** [v > 0] *)
Definition gt_zero (v : value) : outcome bool :=
  match ToNumber v with
  | Ret x => Ret (SFltb (S754_zero false) x)
  | Throw e => Throw e
  end.

End WithEngine.

(** The receiver of [.map] or [.filter]: the elements of an array; anything
    else has no such method. *)
Definition elements (receiver method : string) (v : value) : outcome (list value) :=
  match v with
  | VArr xs => Ret xs
  | VUndefined =>
      Throw (TypeError ("Cannot read properties of undefined (reading '" +:+ method +:+ "')"))
  | VNull =>
      Throw (TypeError ("Cannot read properties of null (reading '" +:+ method +:+ "')"))
  | _ => Throw (TypeError (receiver +:+ "." +:+ method +:+ " is not a function"))
  end.

(** The line feed of a template literal or of ["\n"]. *)
Definition LF : string := String "010"%char "".

(** [v === 0] *)
Definition is_zero (v : value) : bool :=
  match v with
  | VNum (S754_zero _) => true
  | _ => false
  end.

End Js.

(** ** Computations with exceptions and a state *)

Module Eff.
Import Js.

Definition M (S A : Type) : Type := S → S * outcome A.

#[export] Instance outcome_ret : MRet outcome := λ A a, Ret a.
#[export] Instance outcome_bind : MBind outcome := λ A B f o,
  match o with
  | Ret a => f a
  | Throw e => Throw e
  end.

#[export] Instance outcome_fmap : FMap outcome := λ A B f o,
  match o with
  | Ret a => Ret (f a)
  | Throw e => Throw e
  end.

#[export] Instance M_ret {S} : MRet (M S) := λ A a s, (s, Ret a).
#[export] Instance M_bind {S} : MBind (M S) := λ A B f m s,
  match m s with
  | (s', Ret a) => f a s'
  | (s', Throw e) => (s', Throw e)
  end.

Definition lift {S A} (o : outcome A) : M S A := λ s, (s, o).
Definition throw {S A} (e : exn) : M S A := lift (Throw e).
Definition get_state {S} : M S S := λ s, (s, Ret s).
Definition modify {S} (f : S → S) : M S () := λ s, (f s, Ret ()).

(** [try { body } catch (e) { handler e }] *)
Definition try_catch {S A} (body : M S A) (handler : exn → M S A) : M S A :=
  λ s,
    match body s with
    | (s', Throw e) => handler e s'
    | done => done
    end.

(** [try { body } finally { cleanup }]: the cleanup runs whichever way the
    body ends; the body's result stands unless the cleanup itself throws. *)
Definition finally {S A} (body : M S A) (cleanup : M S ()) : M S A :=
  λ s,
    let '(s', o) := body s in
    match cleanup s' with
    | (s'', Ret _) => (s'', o)
    | (s'', Throw e) => (s'', Throw e)
    end.

Arguments M_ret {S A} a s /.
Arguments M_bind {S A B} f m s /.
Arguments lift {S A} o s /.
Arguments throw {S A} e s /.
Arguments get_state {S} s /.
Arguments modify {S} f s /.
Arguments try_catch {S A} body handler s /.
Arguments finally {S A} body cleanup s /.

(** The elements of an array through a callback, left to right. *)
Fixpoint each {A B} (f : nat → A → outcome B) (i : nat) (l : list A)
  : outcome (list B) :=
  match l with
  | [] => Ret []
  | x :: rest => y ← f i x; ys ← each f (S i) rest; Ret (y :: ys)
  end.

End Eff.

(** ** Schemas of the validation library *)

Module Zod.
Import Js.

Inductive schema : Type :=
| z_string
| z_number
| z_boolean
| z_array (item : schema)
| z_object (shape : list (string * schema)).

(** [schema.safeParse(v)]: the parsed value, or nothing when [v] does not
    match.  An object keeps the keys of the shape, in the order of the
    shape, and drops the others; a number is a finite number (the values
    parsed here are decoded from JSON text, which has no other numbers). *)
Fixpoint parse (t : schema) (v : value) : option value :=
  match t with
  | z_string => match v with VStr _ => Some v | _ => None end
  | z_number =>
      match v with
      | VNum x => if is_finite x then Some v else None
      | _ => None
      end
  | z_boolean => match v with VBool _ => Some v | _ => None end
  | z_array item =>
      match v with
      | VArr xs => VArr <$> mapM (parse item) xs
      | _ => None
      end
  | z_object shape =>
      match v with
      | VObj fs =>
          VObj <$>
            (fix fields (sh : list (string * schema)) : option (list (string * value)) :=
               match sh with
               | [] => Some []
               | (k, tk) :: rest =>
                   v' ← parse tk (default VUndefined (assoc k fs));
                   r ← fields rest;
                   Some ((k, v') :: r)
               end) shape
      | _ => None
      end
  end.

End Zod.

(** ** The external services *)

Module Service.
Import Js.

(** One part of a user message. *)
Inductive part : Type :=
| FilePart (data : string) (mediaType : string)
| TextPart (text : string).

Inductive content : Type :=
| Parts (ps : list part)
| Plain (s : string).

(** The argument of [generateText]. *)
Record call := {
  model : string;
  output : Zod.schema;
  system : string;
  messages : content;
}.

(** What the model call comes back with: a decoded JSON reply, or a failure
    (transport, provider, or a reply that is not JSON). *)
Inductive reply : Type :=
| Reply (v : value)
| Failure (e : exn).

Inductive event : Type :=
| Put (pathname : string)
| Del (url : string)
| Generate (c : call)
| ConsoleError (label : string).

(** The services as they answer during one request. *)
Record Env := {
  Date_now : Z;
  put : string → outcome string;      (* the [url] of the stored blob *)
  del : string → outcome ();
  ask : call → reply;
}.

(** The state of one request: the local [blobUrl] and the calls made. *)
Record frame := {
  blobUrl : option string;
  calls : list event;
}.

Definition frame0 : frame := {| blobUrl := None; calls := [] |}.

Definition emit (ev : event) : Eff.M frame () :=
  Eff.modify (λ fr, {| blobUrl := blobUrl fr; calls := calls fr ++ [ev] |}).

Definition set_blobUrl (u : string) : Eff.M frame () :=
  Eff.modify (λ fr, {| blobUrl := Some u; calls := calls fr |}).

Section WithEnv.
Context (env : Env).
Import Eff.

Definition blob_put (pathname : string) : M frame string :=
  emit (Put pathname);; lift (put env pathname).

Definition blob_del (url : string) : M frame () :=
  emit (Del url);; lift (del env url).

Definition console_error (label : string) : M frame () :=
  emit (ConsoleError label).

(** [generateText] with [Output.object]: the reply is validated against the
    schema of the call; a reply that does not match makes the call throw. *)
Definition generateText (c : call) : M frame value :=
  emit (Generate c);;
  match ask env c with
  | Failure e => throw e
  | Reply v =>
      match Zod.parse (output c) v with
      | Some o => mret o
      | None => throw (Error "No object generated: response did not match schema.")
      end
  end.

End WithEnv.

(** An uploaded file. *)
Record File := {
  name : string;
  type : string;
  size : Z;
}.

(** A field of a multipart form: a file or a string. *)
Inductive entry : Type :=
| EFile (f : File)
| EString (t : text).

Record NextRequest := {
  formData : outcome (list (string * entry));
  json : outcome value;
}.

Record Response := {
  status : Z;
  body : value;
}.

(** [NextResponse.json(body, { status })] *)
Definition NextResponse_json (body : value) (status : Z) : Response :=
  {| status := status; body := body |}.

Definition error_body (message : string) : value :=
  VObj [("error", VStr message)].

(** [response.ok] *)
Definition ok (r : Response) : bool :=
  (200 <=? status r)%Z && (status r <=? 299)%Z.

(** [!entry], [entry.type], [entry.size > n] for what [formData.get]
    returned. *)
Definition absent (e : option entry) : bool :=
  match e with
  | None => true
  | Some (EFile _) => false
  | Some (EString t) => negb (text_truthy t)
  end.

Definition type_of (e : option entry) : option string :=
  match e with
  | Some (EFile f) => Some (type f)
  | _ => None
  end.

Definition size_exceeds (e : option entry) (n : Z) : bool :=
  match e with
  | Some (EFile f) => (n <? size f)%Z
  | _ => false
  end.

End Service.

(** ** [src/app/api/process-rfp/route.ts]: the extraction stage *)

Module ProcessRfp.
Import Js Eff Zod Service.

Definition rfpSchema : schema :=
  z_object
    [("title", z_string);
     ("rawText", z_string);
     ("requirements",
       z_array (z_object [("text", z_string); ("category", z_string)]))].

Definition maxSize : Z := 10 * 1024 * 1024.

Section Route.
Context `{!Engine} (env : Env).

Definition extract (blobUrl : string) : call :=
  {| model := "anthropic/claude-sonnet-4.5";
     output := rfpSchema;
     system :=
       "You are a helpful assistant that extracts the title, raw text, and requirements organized into categories from an RFP document.";
     messages := Parts [FilePart blobUrl "application/pdf"] |}.

(** The [finally] block shared by the two uploading routes is written out in
    each of them, as in the source. *)
Definition POST (request : NextRequest) : M frame Response :=
  finally
    (try_catch
       (formData ← lift (formData request);
        let file := assoc "file" formData in
        if absent file then
          mret (NextResponse_json (error_body "No file provided") 400)
        else if negb (bool_decide (type_of file = Some "application/pdf")) then
          mret (NextResponse_json (error_body "File must be a PDF") 400)
        else if size_exceeds file maxSize then
          mret (NextResponse_json (error_body "File size must be less than 10MB") 400)
        else
          match file with
          | Some (EFile file) =>
              let fileName := "rfp-" +:+ pretty (Date_now env) +:+ "-" +:+ name file in
              url ← blob_put env fileName;
              set_blobUrl url;;
              if negb (truthy (VStr url)) then
                throw (Error "Failed to upload file to blob storage")
              else if negb (URL_canParse url) then
                throw (TypeError "Invalid URL")
              else
                output ← generateText env (extract url);
                mret (NextResponse_json (VObj [("output", output)]) 200)
          | _ => throw (TypeError "file.arrayBuffer is not a function")
          end)
       (λ error,
          console_error "Error processing RFP:";;
          mret (NextResponse_json
                  (error_body (message_or "Failed to process RFP document" error))
                  500)))
    (fr ← get_state;
     match blobUrl fr with
     | Some url =>
         if truthy (VStr url) then
           try_catch (blob_del env url)
             (λ cleanupError, console_error "Error cleaning up blob file:")
         else mret ()
     | None => mret ()
     end).

End Route.
End ProcessRfp.

(** ** [src/unnamed/part_000]: the assessment stage

    This is the handler whose request contract is the one the page uses
    for ["/api/process-bid"] (a [file] and the [requirements] of the RFP). *)

Module ProcessBid.
Import Js Eff Zod Service.

Definition bidSchema : schema :=
  z_object
    [("title", z_string);
     ("rawText", z_string);
     ("totalCost", z_number);
     ("timeline", z_string);
     ("requirements",
       z_array
         (z_object
            [("text", z_string);
             ("category", z_string);
             ("isSatisfied", z_boolean);
             ("reason", z_string)]))].

Definition maxSize : Z := 10 * 1024 * 1024.

(** [JSON.parse(requirementsJson)] for what [formData.get] returned; a file
    is first turned into the string ["[object File]"], which does not
    parse. *)
Definition parse_entry (e : option entry) : outcome value :=
  match e with
  | Some (EString t) => JSON_parse t
  | Some (EFile _) => Throw (SyntaxError "Unexpected token in JSON")
  | None => Ret VNull
  end.

Section Route.
Context `{!Engine} (env : Env).

(** [requirements.map((req, index) => `${index + 1}. [${req.category}] ${req.text}`).join("\n")] *)
Definition requirementsText (requirements : value) : outcome string :=
  reqs ← elements "requirements" "map" requirements;
  lines ← each (λ index req,
                  category ← get req "category" ≫= ToString;
                  text ← get req "text" ≫= ToString;
                  Ret (pretty (index + 1)%nat +:+ ". [" +:+ category
                         +:+ "] " +:+ text))
             0 reqs;
  Ret (String.concat LF lines).

Definition assess (blobUrl requirementsText : string) : call :=
  {| model := "anthropic/claude-haiku-4.5";
     output := bidSchema;
     system :=
       "You are a helpful assistant that extracts information from bid documents and assesses them against RFP requirements. For each requirement provided, determine if the bid satisfies it and provide a clear reason for your assessment.";
     messages :=
       Parts
         [FilePart blobUrl "application/pdf";
          TextPart
            ("Please extract the title and raw text from this bid document, then assess it against the following RFP requirements. For each requirement, determine if it is satisfied by the bid and provide a reason."
               +:+ LF +:+ LF +:+ "RFP Requirements:" +:+ LF +:+ requirementsText)] |}.

Definition POST (request : NextRequest) : M frame Response :=
  finally
    (try_catch
       (formData ← lift (formData request);
        let file := assoc "file" formData in
        let requirementsJson := assoc "requirements" formData in
        if absent file then
          mret (NextResponse_json (error_body "No file provided") 400)
        else if absent requirementsJson then
          mret (NextResponse_json (error_body "No requirements provided") 400)
        else
          match parse_entry requirementsJson with
          | Throw _ =>
              mret (NextResponse_json (error_body "Invalid requirements JSON") 400)
          | Ret requirements =>
              if negb (bool_decide (type_of file = Some "application/pdf")) then
                mret (NextResponse_json (error_body "File must be a PDF") 400)
              else if size_exceeds file maxSize then
                mret (NextResponse_json
                        (error_body "File size must be less than 10MB") 400)
              else
                match file with
                | Some (EFile file) =>
                    let fileName :=
                      "bid-" +:+ pretty (Date_now env) +:+ "-" +:+ name file in
                    url ← blob_put env fileName;
                    set_blobUrl url;;
                    if negb (truthy (VStr url)) then
                      throw (Error "Failed to upload file to blob storage")
                    else
                      text ← lift (requirementsText requirements);
                      if negb (URL_canParse url) then
                        throw (TypeError "Invalid URL")
                      else
                        output ← generateText env (assess url text);
                        mret (NextResponse_json (VObj [("output", output)]) 200)
                | _ => throw (TypeError "file.arrayBuffer is not a function")
                end
          end)
       (λ error,
          console_error "Error processing bid:";;
          mret (NextResponse_json
                  (error_body (message_or "Failed to process bid document" error))
                  500)))
    (fr ← get_state;
     match blobUrl fr with
     | Some url =>
         if truthy (VStr url) then
           try_catch (blob_del env url)
             (λ cleanupError, console_error "Error cleaning up blob file:")
         else mret ()
     | None => mret ()
     end).

End Route.
End ProcessBid.

(** ** [src/app/api/process-bid/route.ts]: the first draft of the route

    The draft reads nothing from the request (its file part is the literal
    ['dataURL goes here']) and stages nothing; the page does not speak its
    contract.  It is kept here to record what it does. *)

Module ProcessBidDraft.
Import Js Eff Zod Service.

Definition bidSchema : schema :=
  z_object
    [("title", z_string);
     ("description", z_string);
     ("requirements", z_array z_string);
     ("budget", z_number);
     ("timeline", z_string);
     ("contact", z_string)].

Section Route.
Context (env : Env).

Definition POST (request : NextRequest) : M frame Response :=
  output ← generateText env
    {| model := "anthropic/claude-sonnet-4.5";
       output := bidSchema;
       system :=
         "You are a helpful assistant that extracts the title, description, requirements, budget, timeline, and contact from a RFP document.";
       messages := Parts [FilePart "dataURL goes here" "application/pdf"] |};
  mret (NextResponse_json (VObj [("output", output)]) 200).

End Route.
End ProcessBidDraft.

(** ** [src/app/api/analyze-all/route.ts]: the comparative analysis stage *)

Module AnalyzeAll.
Import Js Eff Zod Service.

Definition analysisSchema : schema :=
  z_object
    [("recommendation", z_string);
     ("recommendationReason", z_string);
     ("openQuestions",
       z_array
         (z_object
            [("companyName", z_string);
             ("openQuestions", z_array z_string)]))].

Section Route.
Context `{!Engine} (env : Env).

(** [rfp.requirements.map((req, index) => `${index + 1}. [${req.category}] ${req.text}`).join("\n")] *)
Definition rfpRequirementsText (rfp : value) : outcome string :=
  requirements ← get rfp "requirements";
  reqs ← elements "rfp.requirements" "map" requirements;
  lines ← each (λ index req,
                  category ← get req "category" ≫= ToString;
                  text ← get req "text" ≫= ToString;
                  Ret (pretty (index + 1)%nat +:+ ". [" +:+ category
                         +:+ "] " +:+ text))
             0 reqs;
  Ret (String.concat LF lines).

(** [Math.round((satisfied / total) * 100)] *)
Definition percentage (satisfied total : nat) : number :=
  Math_round (fmul (fdiv (of_nat satisfied) (of_nat total)) (of_Z 100)).

(** The summary of one bid, the callback of [bids.map]. *)
Definition summary (index : nat) (bid : value) : outcome string :=
  rs ← get bid "requirements" ≫= elements "bid.requirements" "filter";
  flags ← each (λ _ r, truthy <$> get r "isSatisfied") 0 rs;
  let satisfied := length (List.filter (λ b : bool, b) flags) in
  let total := length rs in
  title ← get bid "title" ≫= ToString;
  totalCost ← get bid "totalCost" ≫= toLocaleString;
  timeline ← get bid "timeline" ≫= ToString;
  details ← each (λ _ r,
                    category ← get r "category" ≫= ToString;
                    text ← get r "text" ≫= ToString;
                    isSatisfied ← get r "isSatisfied";
                    reason ← get r "reason" ≫= ToString;
                    Ret ("  • [" +:+ category +:+ "] " +:+ text +:+ " - "
                           +:+ (if truthy isSatisfied then "SATISFIED" else "NOT SATISFIED")
                           +:+ ": " +:+ reason))
               0 rs;
  Ret ("Bid " +:+ pretty (index + 1)%nat +:+ ": " +:+ title +:+ LF
         +:+ "- Total Cost: $" +:+ totalCost +:+ LF
         +:+ "- Timeline: " +:+ timeline +:+ LF
         +:+ "- Requirements Satisfied: " +:+ pretty satisfied +:+ "/" +:+ pretty total
         +:+ " (" +:+ Number_toString (percentage satisfied total) +:+ "%)" +:+ LF
         +:+ "- Requirements Details:" +:+ LF
         +:+ String.concat LF details).

Definition bidsSummary (bids : list value) : outcome string :=
  String.concat (LF +:+ LF) <$> each summary 0 bids.

Definition analyze (title rfpRequirementsText bidsSummary : string) : call :=
  {| model := "anthropic/claude-sonnet-4.5";
     output := analysisSchema;
     system :=
       "You are an expert procurement analyst that compares multiple bids against an RFP. Analyze all bids comprehensively, considering cost, timeline, requirement satisfaction, and overall fit. Identify the best bid with clear reasoning and generate specific, actionable open questions for each company based on gaps, ambiguities, or clarifications needed in their proposals.";
     messages :=
       Plain
         ("Please analyze the following RFP and all submitted bids. Provide a recommendation for the best bid with clear reasoning, and generate specific open questions for each company that should be asked to clarify their proposals."
            +:+ LF +:+ LF +:+ "RFP Title: " +:+ title +:+ LF +:+ LF
            +:+ "RFP Requirements:" +:+ LF +:+ rfpRequirementsText +:+ LF +:+ LF
            +:+ "Submitted Bids:" +:+ LF +:+ bidsSummary +:+ LF +:+ LF
            +:+ "Please provide:" +:+ LF
            +:+ "1. A clear recommendation for which bid is best" +:+ LF
            +:+ "2. Detailed reasoning for your recommendation" +:+ LF
            +:+ "3. Specific open questions for each company that should be asked to clarify gaps, ambiguities, or areas needing more detail in their proposals.") |}.

Definition POST (request : NextRequest) : M frame Response :=
  try_catch
    (data ← lift (json request);
     rfp ← lift (get data "rfp");
     bids ← lift (get data "bids");
     if negb (truthy rfp) then
       mret (NextResponse_json (error_body "RFP data is required") 400)
     else
       match bids with
       | VArr (bid :: rest) =>
           rfpText ← lift (rfpRequirementsText rfp);
           summaries ← lift (bidsSummary (bid :: rest));
           title ← lift (get rfp "title" ≫= ToString);
           output ← generateText env (analyze title rfpText summaries);
           mret (NextResponse_json (VObj [("output", output)]) 200)
       | _ =>
           mret (NextResponse_json (error_body "At least one bid is required") 400)
       end)
    (λ error,
       console_error "Error analyzing bids:";;
       mret (NextResponse_json
               (error_body (message_or "Failed to analyze bids" error)) 500)).

End Route.
End AnalyzeAll.

(** ** [src/app/page.tsx]: the page that holds the project *)

Module Page.
Import Js Eff Service.

Definition STORAGE_KEY : string := "rfp-bid-project".

(** The state of the component.  The flags that only drive the display of a
    drag gesture are left out. *)
Record Home := {
  rfpFile : option File;
  isRfpUploading : bool;
  rfpData : value;
  bidFile : option File;
  isBidUploading : bool;
  bids : value;
  expandedBidIndex : option nat;
  analysisData : value;
  isAnalyzing : bool;
  error : value;
}.

(** The initial values of the [useState] calls. *)
Definition initial : Home :=
  {| rfpFile := None; isRfpUploading := false; rfpData := VNull;
     bidFile := None; isBidUploading := false; bids := VArr [];
     expandedBidIndex := None;
     analysisData := VNull; isAnalyzing := false; error := VNull |}.

(** The page in its browser: the component, the local store, the console,
    whether a dependency of the saving effect changed since the effect last
    ran, and the bids handed to [setBids((prev) => [...prev, bid])], which
    React appends when it renders next. *)
Record Browser := {
  home : Home;
  localStorage : gmap string text;
  console : list string;
  stale : bool;
  appended : list value;
}.

Definition with_home (f : Home → Home) (stales : bool) : M Browser () :=
  modify (λ b, {| home := f (home b); localStorage := localStorage b;
                  console := console b; stale := stale b || stales;
                  appended := appended b |}).

Definition append_bid (bid : value) : M Browser () :=
  modify (λ b, {| home := home b; localStorage := localStorage b;
                  console := console b; stale := stale b;
                  appended := appended b ++ [bid] |}).

Definition setRfpFile (x : option File) : M Browser () :=
  with_home (λ h, {| rfpFile := x; isRfpUploading := isRfpUploading h;
    rfpData := rfpData h; bidFile := bidFile h; isBidUploading := isBidUploading h;
    bids := bids h; expandedBidIndex := expandedBidIndex h;
    analysisData := analysisData h; isAnalyzing := isAnalyzing h; error := error h |})
    false.

Definition setIsRfpUploading (x : bool) : M Browser () :=
  with_home (λ h, {| rfpFile := rfpFile h; isRfpUploading := x;
    rfpData := rfpData h; bidFile := bidFile h; isBidUploading := isBidUploading h;
    bids := bids h; expandedBidIndex := expandedBidIndex h;
    analysisData := analysisData h; isAnalyzing := isAnalyzing h; error := error h |})
    false.

Definition setBidFile (x : option File) : M Browser () :=
  with_home (λ h, {| rfpFile := rfpFile h; isRfpUploading := isRfpUploading h;
    rfpData := rfpData h; bidFile := x; isBidUploading := isBidUploading h;
    bids := bids h; expandedBidIndex := expandedBidIndex h;
    analysisData := analysisData h; isAnalyzing := isAnalyzing h; error := error h |})
    false.

Definition setIsBidUploading (x : bool) : M Browser () :=
  with_home (λ h, {| rfpFile := rfpFile h; isRfpUploading := isRfpUploading h;
    rfpData := rfpData h; bidFile := bidFile h; isBidUploading := x;
    bids := bids h; expandedBidIndex := expandedBidIndex h;
    analysisData := analysisData h; isAnalyzing := isAnalyzing h; error := error h |})
    false.

Definition setExpandedBidIndex (x : option nat) : M Browser () :=
  with_home (λ h, {| rfpFile := rfpFile h; isRfpUploading := isRfpUploading h;
    rfpData := rfpData h; bidFile := bidFile h; isBidUploading := isBidUploading h;
    bids := bids h; expandedBidIndex := x;
    analysisData := analysisData h; isAnalyzing := isAnalyzing h; error := error h |})
    false.

Definition setIsAnalyzing (x : bool) : M Browser () :=
  with_home (λ h, {| rfpFile := rfpFile h; isRfpUploading := isRfpUploading h;
    rfpData := rfpData h; bidFile := bidFile h; isBidUploading := isBidUploading h;
    bids := bids h; expandedBidIndex := expandedBidIndex h;
    analysisData := analysisData h; isAnalyzing := x; error := error h |})
    false.

Definition setError (x : value) : M Browser () :=
  with_home (λ h, {| rfpFile := rfpFile h; isRfpUploading := isRfpUploading h;
    rfpData := rfpData h; bidFile := bidFile h; isBidUploading := isBidUploading h;
    bids := bids h; expandedBidIndex := expandedBidIndex h;
    analysisData := analysisData h; isAnalyzing := isAnalyzing h; error := x |})
    false.

(** The three setters below feed the dependencies of the saving effect. *)
Definition setRfpData (x : value) : M Browser () :=
  b ← get_state;
  with_home (λ h, {| rfpFile := rfpFile h; isRfpUploading := isRfpUploading h;
    rfpData := x; bidFile := bidFile h; isBidUploading := isBidUploading h;
    bids := bids h; expandedBidIndex := expandedBidIndex h;
    analysisData := analysisData h; isAnalyzing := isAnalyzing h; error := error h |})
    (negb (Object_is (rfpData (home b)) x)).

Definition setBids (x : value) : M Browser () :=
  b ← get_state;
  with_home (λ h, {| rfpFile := rfpFile h; isRfpUploading := isRfpUploading h;
    rfpData := rfpData h; bidFile := bidFile h; isBidUploading := isBidUploading h;
    bids := x; expandedBidIndex := expandedBidIndex h;
    analysisData := analysisData h; isAnalyzing := isAnalyzing h; error := error h |})
    (negb (Object_is (bids (home b)) x)).

Definition setAnalysisData (x : value) : M Browser () :=
  b ← get_state;
  with_home (λ h, {| rfpFile := rfpFile h; isRfpUploading := isRfpUploading h;
    rfpData := rfpData h; bidFile := bidFile h; isBidUploading := isBidUploading h;
    bids := bids h; expandedBidIndex := expandedBidIndex h;
    analysisData := x; isAnalyzing := isAnalyzing h; error := error h |})
    (negb (Object_is (analysisData (home b)) x)).

Definition localStorage_getItem (k : string) : M Browser (option text) :=
  b ← get_state; mret (localStorage b !! k).

Definition localStorage_setItem (k : string) (t : text) : M Browser () :=
  modify (λ b, {| home := home b; localStorage := <[k := t]> (localStorage b);
                  console := console b; stale := stale b;
                  appended := appended b |}).

Definition localStorage_removeItem (k : string) : M Browser () :=
  modify (λ b, {| home := home b; localStorage := delete k (localStorage b);
                  console := console b; stale := stale b;
                  appended := appended b |}).

Definition console_error (label : string) : M Browser () :=
  modify (λ b, {| home := home b; localStorage := localStorage b;
                  console := console b ++ [label]; stale := stale b;
                  appended := appended b |}).

(** What [fetch] resolves to, as the handlers use it. *)
Record FetchResponse := {
  ok : bool;
  json : outcome value;
}.

(** A request sent to a route. *)
Inductive request : Type :=
| PostForm (url : string) (fields : list (string * entry))
| PostJson (url : string) (body : text).

Section Handlers.
Context `{!Engine}.

(** [fetch]: the answer of the network to a request, or a rejection. *)
Context (fetch : request → outcome FetchResponse).

(** Load from localStorage on mount. *)
Definition load_effect : M Browser () :=
  stored ← localStorage_getItem STORAGE_KEY;
  match stored with
  | Some stored =>
      if text_truthy stored then
        try_catch
          (data ← lift (JSON_parse stored);
           r ← lift (get data "rfpData");
           (if truthy r then setRfpData r else mret ());;
           bs ← lift (get data "bids");
           (if truthy bs then setBids bs else mret ());;
           a ← lift (get data "analysisData");
           (if truthy a then setAnalysisData a else mret ()))
          (λ err, console_error "Failed to load stored data:")
      else mret ()
  | None => mret ()
  end.

(** Save to localStorage when data changes: the body of the effect, for
    the state [h] of the render it belongs to. *)
Definition save_effect (h : Home) : M Browser () :=
  nonempty ←
    (if truthy (rfpData h) then mret true
     else
       positive ← lift (get (bids h) "length" ≫= gt_zero);
       if positive : bool then mret true else mret (truthy (analysisData h)));
  if nonempty : bool then
    localStorage_setItem STORAGE_KEY
      (JSON_stringify
         (VObj [("rfpData", rfpData h); ("bids", bids h);
                ("analysisData", analysisData h)]))
  else mret ().

(** After a handler has run the component renders again: the queued bids
    are appended, and the saving effect runs if one of its dependencies
    changed. *)
Fixpoint render_bids (queue : list value) : M Browser () :=
  match queue with
  | [] => mret ()
  | bid :: rest =>
      b ← get_state;
      prev ← lift (spread "prev" (bids (home b)));
      setBids (VArr (prev ++ [bid]));;
      render_bids rest
  end.

Definition commit : M Browser () :=
  b ← get_state;
  modify (λ b, {| home := home b; localStorage := localStorage b;
                  console := console b; stale := stale b; appended := [] |});;
  render_bids (appended b);;
  b ← get_state;
  if stale b then
    modify (λ b, {| home := home b; localStorage := localStorage b;
                    console := console b; stale := false;
                    appended := appended b |});;
    save_effect (home b)
  else mret ().

Definition validateFile (fileToValidate : File) : option string :=
  if negb (String.eqb (type fileToValidate) "application/pdf") then
    Some "Please upload a PDF file"
  else if (10 * 1024 * 1024 <? size fileToValidate)%Z then
    Some "File size must be less than 10MB"
  else None.

Definition handleStartNewProject : M Browser () :=
  setRfpFile None;;
  setRfpData VNull;;
  setBidFile None;;
  setBids (VArr []);;
  setExpandedBidIndex None;;
  setAnalysisData VNull;;
  setError VNull;;
  localStorage_removeItem STORAGE_KEY.

Definition handleRfpFileSelect (selectedFile : File) : M Browser () :=
  match validateFile selectedFile with
  | Some validationError => setError (VStr validationError);; setRfpFile None
  | None => setError VNull;; setRfpFile (Some selectedFile)
  end.


(** [throw new Error(errorData.error || fallback)] *)
Definition throw_reported {A} (response : FetchResponse) (fallback : string)
  : M Browser A :=
  errorData ← lift (json response);
  reported ← lift (get errorData "error");
  message ← lift (ToString (if truthy reported then reported else VStr fallback));
  throw (Error message).

Definition handleRfpUpload : M Browser () :=
  b ← get_state;
  match rfpFile (home b) with
  | None => mret ()
  | Some file =>
      setIsRfpUploading true;;
      setError VNull;;
      finally
        (try_catch
           (response ← lift (fetch (PostForm "/api/process-rfp" [("file", EFile file)]));
            if negb (ok response) then
              throw_reported response "Failed to extract RFP data"
            else
              data ← lift (json response);
              output ← lift (get data "output");
              setRfpData output;;
              setRfpFile None)
           (λ err, setError (VStr (message_or "An unexpected error occurred" err))))
        (setIsRfpUploading false)
  end.

Definition handleBidUpload : M Browser () :=
  b ← get_state;
  match bidFile (home b) with
  | None => mret ()
  | Some file =>
      let rfp := rfpData (home b) in
      if negb (truthy rfp) then mret ()
      else
        setIsBidUploading true;;
        setError VNull;;
        finally
          (try_catch
             (requirements ← lift (get rfp "requirements");
              response ← lift (fetch (PostForm "/api/process-bid"
                                        [("file", EFile file);
                                         ("requirements",
                                           EString (JSON_stringify requirements))]));
              if negb (ok response) then
                throw_reported response "Failed to process bid"
              else
                data ← lift (json response);
                output ← lift (get data "output");
                append_bid output;;
                setBidFile None)
             (λ err, setError (VStr (message_or "An unexpected error occurred" err))))
          (setIsBidUploading false)
  end.

Definition handleAnalyzeAll : M Browser () :=
  b ← get_state;
  let rfp := rfpData (home b) in
  empty ←
    (if negb (truthy rfp) then mret true
     else lift (is_zero <$> get (bids (home b)) "length"));
  if empty : bool then
    setError (VStr "Please upload an RFP and at least one bid before analyzing")
  else
    setIsAnalyzing true;;
    setError VNull;;
    finally
      (try_catch
         (response ← lift (fetch (PostJson "/api/analyze-all"
                                    (JSON_stringify
                                       (VObj [("rfp", rfp); ("bids", bids (home b))]))));
          if negb (ok response) then
            throw_reported response "Failed to analyze bids"
          else
            data ← lift (json response);
            output ← lift (get data "output");
            setAnalysisData output)
         (λ err, setError (VStr (message_or "An unexpected error occurred" err))))
      (setIsAnalyzing false).

End Handlers.
End Page.

(** ** The page served by the routes *)

Module App.
Import Js Eff Service.

(** The network between the page and the routes, and the services behind the
    routes, as they behave during one request. *)
Record Network := {
  connected : bool;
  services : Env;
}.

(** The response the page sees for what a route handler produced.  A handler
    that throws leaves the framework to answer 500 with a body that is not
    JSON. *)
Definition deliver (r : frame * outcome Response) : Page.FetchResponse :=
  match r.2 with
  | Ret resp => {| Page.ok := ok resp; Page.json := Ret (body resp) |}
  | Throw _ =>
      {| Page.ok := false;
         Page.json := Throw (SyntaxError "Unexpected token in JSON") |}
  end.

Definition not_found : Page.FetchResponse :=
  {| Page.ok := false; Page.json := Throw (SyntaxError "Unexpected token in JSON") |}.

Section Served.
Context `{!Engine} (net : Network).

Definition fetch (req : Page.request) : outcome Page.FetchResponse :=
  if negb (connected net) then Throw (TypeError "Failed to fetch")
  else
    match req with
    | Page.PostForm url fields =>
        let request :=
          {| formData := Ret fields;
             json := Throw (SyntaxError "Unexpected token in JSON") |} in
        if String.eqb url "/api/process-rfp" then
          Ret (deliver (ProcessRfp.POST (services net) request frame0))
        else if String.eqb url "/api/process-bid" then
          Ret (deliver (ProcessBid.POST (services net) request frame0))
        else Ret not_found
    | Page.PostJson url body =>
        let request :=
          {| formData := Throw (TypeError "Content-Type was not multipart/form-data");
             json := JSON_parse body |} in
        if String.eqb url "/api/analyze-all" then
          Ret (deliver (AnalyzeAll.POST (services net) request frame0))
        else Ret not_found
    end.

End Served.


Section Run.
Context `{!Engine}.





End Run.
End App.

(** ** The data model of the design document, and its image in values *)

Module Requirement.
Record t := { text : string; category : string }.
Definition encode (r : t) : Js.value :=
  Js.VObj [("text", Js.VStr (text r)); ("category", Js.VStr (category r))].
End Requirement.

Module AssessedRequirement.
Record t := {
  text : string;
  category : string;
  isSatisfied : bool;
  reason : string;
}.
Definition encode (r : t) : Js.value :=
  Js.VObj
    [("text", Js.VStr (text r));
     ("category", Js.VStr (category r));
     ("isSatisfied", Js.VBool (isSatisfied r));
     ("reason", Js.VStr (reason r))].
End AssessedRequirement.

Module Bid.
Record t := {
  title : string;
  rawText : string;
  totalCost : Js.number;
  timeline : string;
  requirements : list AssessedRequirement.t;
}.
Definition encode (b : t) : Js.value :=
  Js.VObj
    [("title", Js.VStr (title b));
     ("rawText", Js.VStr (rawText b));
     ("totalCost", Js.VNum (totalCost b));
     ("timeline", Js.VStr (timeline b));
     ("requirements", Js.VArr (AssessedRequirement.encode <$> requirements b))].
End Bid.

Module CompanyQuestions.
Record t := { companyName : string; openQuestions : list string }.
Definition encode (q : t) : Js.value :=
  Js.VObj
    [("companyName", Js.VStr (companyName q));
     ("openQuestions", Js.VArr (Js.VStr <$> openQuestions q))].
End CompanyQuestions.

(** The analysis as [page.tsx] declares it ([AnalysisData]) and as the
    README documents the response of the route. *)
Module Analysis.
Record t := {
  recommendation : string;
  mainRecommendationReason : string;
  supportingRecommendationPoints : list string;
  openQuestions : list CompanyQuestions.t;
}.
Definition encode (a : t) : Js.value :=
  Js.VObj
    [("recommendation", Js.VStr (recommendation a));
     ("mainRecommendationReason", Js.VStr (mainRecommendationReason a));
     ("supportingRecommendationPoints",
       Js.VArr (Js.VStr <$> supportingRecommendationPoints a));
     ("openQuestions", Js.VArr (CompanyQuestions.encode <$> openQuestions a))].
End Analysis.

(** Shapes of raw replies, stated on the reply itself: a reply has the shape
    of a record when it is an object that binds each field of the record to
    a value of the field's kind (other entries do not matter). *)
Module Shape.
Import Js.

Definition has (k : string) (P : value → Prop) (v : value) : Prop :=
  ∃ fs x, v = VObj fs ∧ assoc k fs = Some x ∧ P x.

Definition is_string (v : value) : Prop := ∃ s, v = VStr s.
Definition is_boolean (v : value) : Prop := ∃ b, v = VBool b.
Definition is_number (v : value) : Prop := ∃ x, v = VNum x ∧ is_finite x = true.
Definition is_array (P : value → Prop) (v : value) : Prop :=
  ∃ xs, v = VArr xs ∧ Forall P xs.

Definition assessed_requirement (v : value) : Prop :=
  has "text" is_string v ∧ has "category" is_string v
  ∧ has "isSatisfied" is_boolean v ∧ has "reason" is_string v.

Definition bid (v : value) : Prop :=
  has "title" is_string v ∧ has "rawText" is_string v
  ∧ has "totalCost" is_number v ∧ has "timeline" is_string v
  ∧ has "requirements" (is_array assessed_requirement) v.

Definition company_questions (v : value) : Prop :=
  has "companyName" is_string v ∧ has "openQuestions" (is_array is_string) v.

Definition analysis (v : value) : Prop :=
  has "recommendation" is_string v
  ∧ has "mainRecommendationReason" is_string v
  ∧ has "supportingRecommendationPoints" (is_array is_string) v
  ∧ has "openQuestions" (is_array company_questions) v.

End Shape.

(** An engine for the examples: a locale that prints a number as
    [String] does, and strings of one-byte characters. *)
Definition sample_engine : Js.Engine :=
  {| Js.Number_toLocaleString := λ x,
       match Js.to_Z x with Some z => pretty z | None => "?" end;
     Js.Number_toString_other := λ _, "?";
     Js.StringToNumber := λ _, S754_nan;
     Js.URL_canParse := λ s, String.prefix "https://" s;
     Js.String_length := String.length;
     Js.String_chars := λ s, (λ c, String c "") <$> String.list_ascii_of_string s |}.

(** ** Notions the statements below are written with *)

Module Zod_facts.
Import Js Zod.

(** The entries a shape yields for the fields [fs] of an object: the inner
    loop of [parse] on an object. *)
Definition parse_fields (fs : list (string * value)) :=
  fix fields (sh : list (string * schema)) : option (list (string * value)) :=
    match sh with
    | [] => Some []
    | (k, tk) :: rest =>
        v' ← parse tk (default VUndefined (assoc k fs));
        r ← fields rest;
        Some ((k, v') :: r)
    end.

(** A schema accepts a value when parsing it succeeds. *)
Definition accepts (t : schema) (v : value) : Prop := is_Some (parse t v).

End Zod_facts.

Module Routes.
Import Js Eff Service.

(** What the [finally] block logs when the deletion throws. *)
Definition cleanup_log : event := ConsoleError "Error cleaning up blob file:".

(** The same services with another behaviour of [del]. *)
Definition with_del (env : Env) (d : string → outcome ()) : Env :=
  {| Date_now := Date_now env; put := put env; del := d; ask := ask env |}.

(** The two routes that stage an upload. *)
Inductive uploading `{!Engine} : (Env → NextRequest → M frame Response) → Prop :=
| uploading_rfp : uploading ProcessRfp.POST
| uploading_bid : uploading ProcessBid.POST.

End Routes.

Module Rfp.
Record t := {
  title : string;
  rawText : string;
  requirements : list Requirement.t;
}.
Definition encode (r : t) : Js.value :=
  Js.VObj
    [("title", Js.VStr (title r));
     ("rawText", Js.VStr (rawText r));
     ("requirements", Js.VArr (Requirement.encode <$> requirements r))].
End Rfp.

(** The line of one requirement in the enumerated block, [index] counted
    from one, and the lines of a sequence of requirements. *)
Definition enumerated_line (index : nat) (r : Requirement.t) : string :=
  pretty index +:+ ". [" +:+ Requirement.category r +:+ "] " +:+ Requirement.text r.

Definition enumerate (reqs : list Requirement.t) : list string :=
  imap (λ i, enumerated_line (i + 1)) reqs.

Module Page_facts.
Import Js Page.

(** The project held by the page. *)
Definition project (b : Browser) : value * value * value :=
  (rfpData (home b), bids (home b), analysisData (home b)).

(** A page at rest: nothing queued, the saving effect up to date. *)
Definition at_rest (h : Home) (store : gmap string text) (log : list string)
  : Browser :=
  {| home := h; localStorage := store; console := log;
     stale := false; appended := [] |}.

(** A page that has just been mounted over a store. *)
Definition mounted (store : gmap string text) (log : list string) : Browser :=
  at_rest initial store log.

(** What the restore makes of the entry [k] of the parsed data: the entry
    when the data is an object that binds [k] to a truthy value, the initial
    value of the state otherwise. *)
Definition restored (data : value) (k : string) (initially : value) : value :=
  match data with
  | VObj fs =>
      match assoc k fs with
      | Some x => if truthy x then x else initially
      | None => initially
      end
  | _ => initially
  end.

(** A request that did not succeed: [fetch] rejected, or the response is
    not [ok]. *)
Definition unsuccessful (r : outcome FetchResponse) : bool :=
  match r with
  | Throw _ => true
  | Ret response => negb (ok response)
  end.

End Page_facts.

Module Invariant.
Import Js Page.





End Invariant.

(** Fixtures: the scenarios of the design document. *)
Module Sample.
Import Js Service.

Definition rfp : Rfp.t :=
  {| Rfp.title := "Acme Office Renovation";
     Rfp.rawText := "...";
     Rfp.requirements :=
       [ {| Requirement.text := "Must use licensed contractor";
            Requirement.category := "Compliance" |};
         {| Requirement.text := "Budget under $500k";
            Requirement.category := "Financial" |} ] |}.

Definition bid : Bid.t :=
  {| Bid.title := "BuildCo Proposal";
     Bid.rawText := "...";
     Bid.totalCost := of_Z 420000;
     Bid.timeline := "4 months";
     Bid.requirements :=
       [ {| AssessedRequirement.text := "Must use licensed contractor";
            AssessedRequirement.category := "Compliance";
            AssessedRequirement.isSatisfied := true;
            AssessedRequirement.reason := "Bid states BuildCo holds a state license" |};
         {| AssessedRequirement.text := "Budget under $500k";
            AssessedRequirement.category := "Financial";
            AssessedRequirement.isSatisfied := false;
            AssessedRequirement.reason := "No total is committed to" |} ] |}.

(** A bid the assessment returned without any requirement. *)
Definition quote : Bid.t :=
  {| Bid.title := "Quick Quote";
     Bid.rawText := "...";
     Bid.totalCost := of_Z 15000;
     Bid.timeline := "2 weeks";
     Bid.requirements := [] |}.

(** An analysis in the shape the route asks the model for. *)
Definition analysis : value :=
  VObj [("recommendation", VStr "BuildCo Proposal");
        ("recommendationReason", VStr "The only bid");
        ("openQuestions",
          VArr [CompanyQuestions.encode
                  {| CompanyQuestions.companyName := "BuildCo";
                     CompanyQuestions.openQuestions := ["What is the total?"] |}])].

(** A model that answers each stage with the fixture of that stage: the
    extraction sends one part, the assessment two, the analysis a text. *)
Definition answer (c : call) : reply :=
  match messages c with
  | Parts [_] => Reply (Rfp.encode rfp)
  | Parts _ => Reply (Bid.encode bid)
  | Plain _ => Reply analysis
  end.

Definition services (deletion : outcome ()) : Env :=
  {| Date_now := 1762100000000;
     put := λ pathname, Ret ("https://blob.example/" +:+ pathname);
     del := λ _, deletion;
     ask := answer |}.

Definition pdf : File :=
  {| name := "document.pdf"; type := "application/pdf"; size := 2 * 1024 * 1024 |}.

Definition notes : File :=
  {| name := "notes.txt"; type := "text/plain"; size := 120 |}.

Definition upload (file : File) : NextRequest :=
  {| formData :=
       Ret [("file", EFile file);
            ("requirements",
              EString (JSON_stringify
                         (VArr (Requirement.encode <$> Rfp.requirements rfp))))];
     json := Throw (SyntaxError "Unexpected token in JSON") |}.

(** The request the page sends to compare the bids [bs]. *)
Definition comparison (bs : list Bid.t) : NextRequest :=
  {| formData := Throw (TypeError "Content-Type was not multipart/form-data");
     json := Ret (VObj [("rfp", Rfp.encode rfp); ("bids", VArr (Bid.encode <$> bs))]) |}.


Definition offline : App.Network :=
  {| App.connected := false; App.services := services (Ret ()) |}.

(** A page that holds the RFP and one bid, with another bid selected. *)
Definition loaded : Page.Home :=
  {| Page.rfpFile := None; Page.isRfpUploading := false;
     Page.rfpData := Rfp.encode rfp;
     Page.bidFile := Some pdf; Page.isBidUploading := false;
     Page.bids := VArr [Bid.encode bid];
     Page.expandedBidIndex := None;
     Page.analysisData := VNull; Page.isAnalyzing := false;
     Page.error := VNull |}.

End Sample.



(** ** Notions for the arithmetic of binary64 *)

Module Binary64.
Local Open Scope Z_scope.

(** The quotient [N / D] lies in [[m, m + 1)] for the mantissa [m] of the
    record, whose two bits tell whether it reaches the middle of that
    interval and whether it is off both its start and its middle. *)
Definition located (N D : Z) (mrs : shr_record) : Prop :=
  0 <= shr_m mrs /\
  shr_m mrs * D <= N < (shr_m mrs + 1) * D /\
  (shr_r mrs = true <-> (2 * shr_m mrs + 1) * D <= 2 * N) /\
  (shr_s mrs = true <-> N <> shr_m mrs * D /\ 2 * N <> (2 * shr_m mrs + 1) * D).

(** The rational a mantissa and an exponent denote. *)
Definition pow2 (e : Z) : Q := Qpower 2 e.
Definition F2Q (m e : Z) : Q := (inject_Z m * pow2 e)%Q.

(** Half a unit in the last place of a number in [[1, 2)]. *)
Definition ulp_half : Q := 1 # 9007199254740992.

(** A mantissa of 53 digits. *)
Definition normal (m : positive) : Prop := 2 ^ 52 <= Z.pos m < 2 ^ 53.

End Binary64.

(** * Properties *)

Import Js Eff Zod Service Zod_facts Routes.

(** Computes what is known of a route without opening the schemas, the
    texts and the checks on the upload; [hush] also keeps the conversions
    of values closed. *)
Ltac calm :=
  cbn -[parse String.append pretty absent type_of size_exceeds message_or
        NextResponse_json].

Ltac hush :=
  cbn -[parse String.append pretty absent type_of size_exceeds message_or
        NextResponse_json AnalyzeAll.rfpRequirementsText AnalyzeAll.bidsSummary
        ToString get truthy].

(** Unfolds the combinators of a route. *)
Ltac unfold_route :=
  unfold finally, try_catch, blob_put, blob_del, console_error, generateText,
    set_blobUrl, emit, modify, get_state, throw, lift,
    mbind, M_bind, mret, M_ret.

Ltac run := unfold_route; calm.

(** Splits a membership in an explicit list into its cases. *)
Ltac list_cases H :=
  repeat (apply elem_of_cons in H as [H|H]); try (by apply elem_of_nil in H).

(** ** Schemas *)

Lemma parse_string_inv v o : parse z_string v = Some o → ∃ s, v = VStr s ∧ o = VStr s.
Proof. destruct v; simpl; intros; simplify_eq; eauto. Qed.

Lemma parse_boolean_inv v o : parse z_boolean v = Some o → ∃ b, v = VBool b ∧ o = VBool b.
Proof. destruct v; simpl; intros; simplify_eq; eauto. Qed.

Lemma parse_number_inv v o :
  parse z_number v = Some o → ∃ x, v = VNum x ∧ o = VNum x ∧ is_finite x = true.
Proof. destruct v; simpl; intros; try done. case_match; simplify_eq; eauto. Qed.

Lemma parse_array_inv item v o :
  parse (z_array item) v = Some o →
  ∃ xs ys, v = VArr xs ∧ o = VArr ys ∧ Forall2 (λ x y, parse item x = Some y) xs ys.
Proof.
  destruct v; simpl; intros H; try done.
  apply fmap_Some in H as (ys & H & ->).
  apply mapM_Some in H. eauto.
Qed.

Lemma parse_array_intro item xs ys :
  Forall2 (λ x y, parse item x = Some y) xs ys →
  parse (z_array item) (VArr xs) = Some (VArr ys).
Proof. intros H. simpl. apply mapM_Some in H. by rewrite H. Qed.

Lemma parse_object shape fs :
  parse (z_object shape) (VObj fs) = VObj <$> parse_fields fs shape.
Proof. reflexivity. Qed.

Lemma parse_object_inv shape v o :
  parse (z_object shape) v = Some o →
  ∃ fs r, v = VObj fs ∧ o = VObj r ∧ parse_fields fs shape = Some r.
Proof.
  destruct v; try done. rewrite parse_object. intros H.
  apply fmap_Some in H as (r & H & ->). eauto.
Qed.

Lemma parse_fields_step fs k tk rest :
  parse_fields fs ((k, tk) :: rest) =
    v' ← parse tk (default VUndefined (assoc k fs));
    r ← parse_fields fs rest;
    Some ((k, v') :: r).
Proof. reflexivity. Qed.

Lemma parse_fields_cons fs k tk rest r :
  parse_fields fs ((k, tk) :: rest) = Some r →
  ∃ v' r', r = (k, v') :: r'
    ∧ parse tk (default VUndefined (assoc k fs)) = Some v'
    ∧ parse_fields fs rest = Some r'.
Proof.
  rewrite parse_fields_step. intros H.
  destruct (parse tk _) as [v'|] eqn:Hv; simpl in H; [|done].
  destruct (parse_fields fs rest) as [r'|] eqn:Hr; simpl in H; [|done].
  simplify_eq. eauto.
Qed.

Lemma parse_fields_nil fs r : parse_fields fs [] = Some r → r = [].
Proof. simpl. congruence. Qed.

Lemma parse_requirement_item v o :
  parse (z_object [("text", z_string); ("category", z_string);
                   ("isSatisfied", z_boolean); ("reason", z_string)]) v = Some o →
  ∃ r, o = AssessedRequirement.encode r.
Proof.
  intros H. apply parse_object_inv in H as (fs & r & -> & -> & H).
  repeat (apply parse_fields_cons in H as (? & ? & -> & ? & H)).
  apply parse_fields_nil in H as ->.
  repeat match goal with
  | H : parse z_string _ = Some _ |- _ => apply parse_string_inv in H as (? & _ & ->)
  | H : parse z_boolean _ = Some _ |- _ => apply parse_boolean_inv in H as (? & _ & ->)
  end.
  by eexists (AssessedRequirement.Build_t _ _ _ _).
Qed.

Lemma parse_bid v o :
  parse ProcessBid.bidSchema v = Some o → ∃ b, o = Bid.encode b.
Proof.
  intros H. apply parse_object_inv in H as (fs & r & -> & -> & H).
  repeat (apply parse_fields_cons in H as (? & ? & -> & ? & H)).
  apply parse_fields_nil in H as ->.
  repeat match goal with
  | H : parse z_string _ = Some _ |- _ => apply parse_string_inv in H as (? & _ & ->)
  | H : parse z_number _ = Some _ |- _ => apply parse_number_inv in H as (? & _ & -> & _)
  end.
  match goal with
  | H : parse (z_array _) _ = Some _ |- _ =>
      apply parse_array_inv in H as (? & ys & _ & -> & Hys)
  end.
  rename Hys into H.
  assert (∃ rs, ys = AssessedRequirement.encode <$> rs) as [rs ->].
  { clear -H. induction H as [|x y xs ys Hxy _ [rs ->]].
    - by exists [].
    - apply parse_requirement_item in Hxy as [r ->]. by exists (r :: rs). }
  by eexists (Bid.Build_t _ _ _ _ _).
Qed.

(** *** Shapes and schemas agree *)

Lemma accepts_string v : accepts z_string v ↔ Shape.is_string v.
Proof.
  split.
  - intros [o H]. apply parse_string_inv in H as (s & -> & _). by exists s.
  - intros [s ->]. by eexists.
Qed.

Lemma accepts_boolean v : accepts z_boolean v ↔ Shape.is_boolean v.
Proof.
  split.
  - intros [o H]. apply parse_boolean_inv in H as (s & -> & _). by exists s.
  - intros [s ->]. by eexists.
Qed.

Lemma accepts_number v : accepts z_number v ↔ Shape.is_number v.
Proof.
  split.
  - intros [o H]. apply parse_number_inv in H as (x & -> & _ & ?). by exists x.
  - intros (x & -> & Hx). unfold accepts. simpl. rewrite Hx. by eexists.
Qed.

Lemma accepts_array item P v :
  (∀ x, accepts item x ↔ P x) →
  accepts (z_array item) v ↔ Shape.is_array P v.
Proof.
  intros HP. split.
  - intros [o H]. apply parse_array_inv in H as (xs & ys & -> & _ & H).
    exists xs. split; [done|].
    induction H; constructor; [|done]. apply HP. by eexists.
  - intros (xs & -> & H). unfold accepts.
    assert (∃ ys, Forall2 (λ x y, parse item x = Some y) xs ys) as [ys Hys].
    { induction H as [|x xs Hx _ [ys IH]].
      - by exists [].
      - apply HP in Hx as [y Hy]. exists (y :: ys). by constructor. }
    rewrite (parse_array_intro _ _ _ Hys). by eexists.
Qed.

Lemma accepts_object_nil fs : accepts (z_object []) (VObj fs).
Proof. by eexists. Qed.

Lemma accepts_object_cons k tk rest P v :
  (∀ x, accepts tk x ↔ P x) →
  ¬ P VUndefined →
  accepts (z_object ((k, tk) :: rest)) v ↔ Shape.has k P v ∧ accepts (z_object rest) v.
Proof.
  intros HP Hundef. split.
  - intros [o H]. apply parse_object_inv in H as (fs & r & -> & -> & H).
    apply parse_fields_cons in H as (v' & r' & -> & Hk & Hrest).
    split.
    + exists fs. destruct (assoc k fs) as [x|] eqn:Hx; simpl in Hk.
      * exists x. split_and!; [done..|]. apply HP. by eexists.
      * exfalso. apply Hundef, HP. by eexists.
    + unfold accepts. rewrite parse_object, Hrest. by eexists.
  - intros [(fs & x & -> & Hx & HPx) [o Ho]].
    apply parse_object_inv in Ho as (? & r & [= <-] & -> & Hrest).
    apply HP in HPx as [v' Hv'].
    unfold accepts. rewrite parse_object, parse_fields_step, Hx. simpl.
    rewrite Hv'. simpl. rewrite Hrest. by eexists.
Qed.

Lemma not_string_undefined : ¬ Shape.is_string VUndefined.
Proof. by intros [? ?]. Qed.
Lemma not_boolean_undefined : ¬ Shape.is_boolean VUndefined.
Proof. by intros [? ?]. Qed.
Lemma not_number_undefined : ¬ Shape.is_number VUndefined.
Proof. by intros (? & ? & ?). Qed.
Lemma not_array_undefined P : ¬ Shape.is_array P VUndefined.
Proof. by intros (? & ? & ?). Qed.

Lemma has_object k P v : Shape.has k P v → ∃ fs, v = VObj fs.
Proof. intros (fs & _ & -> & _). eauto. Qed.

Lemma accepts_assessed_requirement v :
  accepts (z_object [("text", z_string); ("category", z_string);
                     ("isSatisfied", z_boolean); ("reason", z_string)]) v
  ↔ Shape.assessed_requirement v.
Proof.
  unfold Shape.assessed_requirement.
  rewrite (accepts_object_cons _ _ _ _ _ accepts_string not_string_undefined).
  rewrite (accepts_object_cons _ _ _ _ _ accepts_string not_string_undefined).
  rewrite (accepts_object_cons _ _ _ _ _ accepts_boolean not_boolean_undefined).
  rewrite (accepts_object_cons _ _ _ _ _ accepts_string not_string_undefined).
  split; [tauto|]. intros (H1 & H2 & H3 & H4). split_and!; try done.
  destruct (has_object _ _ _ H1) as [fs ->]. apply accepts_object_nil.
Qed.

Lemma accepts_bid v : accepts ProcessBid.bidSchema v ↔ Shape.bid v.
Proof.
  unfold Shape.bid, ProcessBid.bidSchema.
  rewrite (accepts_object_cons _ _ _ _ _ accepts_string not_string_undefined).
  rewrite (accepts_object_cons _ _ _ _ _ accepts_string not_string_undefined).
  rewrite (accepts_object_cons _ _ _ _ _ accepts_number not_number_undefined).
  rewrite (accepts_object_cons _ _ _ _ _ accepts_string not_string_undefined).
  rewrite (accepts_object_cons _ _ _ _ _
             (λ x, accepts_array _ _ x accepts_assessed_requirement)
             (not_array_undefined _)).
  split; [tauto|]. intros (H1 & H2 & H3 & H4 & H5). split_and!; try done.
  destruct (has_object _ _ _ H1) as [fs ->]. apply accepts_object_nil.
Qed.

(** ** The uploading routes, case by case *)


Section Uploads.
Context `{!Engine} (env : Env).

Lemma rfp_cases request fr o :
  ProcessRfp.POST env request frame0 = (fr, o) →
  ∃ resp, o = Ret resp ∧
  (   (calls fr = [] ∧ status resp = 400%Z)
    ∨ (∃ e, formData request = Throw e ∧ calls fr = [ConsoleError "Error processing RFP:"] ∧ status resp = 500%Z)
    ∨ (∃ p, (∃ e, put env p = Throw e) ∧ calls fr = [Put p; ConsoleError "Error processing RFP:"] ∧ status resp = 500%Z)
    ∨ (∃ p, put env p = Ret "" ∧ calls fr = [Put p; ConsoleError "Error processing RFP:"] ∧ status resp = 500%Z)
    ∨ (∃ p url middle after,
         put env p = Ret url ∧ url ≠ "" ∧
         calls fr = Put p :: middle ++ Del url :: after ∧
         (after = [] ∧ del env url = Ret () ∨ after = [cleanup_log] ∧ ∃ e, del env url = Throw e) ∧
         (   (middle = [ConsoleError "Error processing RFP:"] ∧ URL_canParse url = false ∧ status resp = 500%Z)
           ∨ (∃ e, middle = [Generate (ProcessRfp.extract url); ConsoleError "Error processing RFP:"]
                   ∧ ask env (ProcessRfp.extract url) = Failure e ∧ status resp = 500%Z)
           ∨ (∃ v, middle = [Generate (ProcessRfp.extract url); ConsoleError "Error processing RFP:"]
                   ∧ ask env (ProcessRfp.extract url) = Reply v
                   ∧ parse ProcessRfp.rfpSchema v = None ∧ status resp = 500%Z)
           ∨ (∃ v out, middle = [Generate (ProcessRfp.extract url)]
                   ∧ ask env (ProcessRfp.extract url) = Reply v
                   ∧ parse ProcessRfp.rfpSchema v = Some out
                   ∧ resp = NextResponse_json (VObj [("output", out)]) 200)))).
Proof.
  unfold ProcessRfp.POST. run.
  destruct (formData request) as [fields|e] eqn:Hform; calm.
  2:{ intros [= <- <-]. eexists; split; [done|]. right; left. eauto. }
  destruct (absent _) eqn:Habs; calm.
  { intros [= <- <-]. eexists; split; [done|]. left. eauto. }
  case_bool_decide as Htype; calm.
  2:{ intros [= <- <-]. eexists; split; [done|]. left. eauto. }
  destruct (size_exceeds _ _) eqn:Hsize; calm.
  { intros [= <- <-]. eexists; split; [done|]. left. eauto. }
  destruct (assoc "file" fields) as [[file|t]|] eqn:Hfile; try done. calm.
  set (p := "rfp-" +:+ _).
  destruct (put env p) as [url|e] eqn:Hput; calm.
  2:{ intros [= <- <-]. eexists; split; [done|]. do 2 right; left. eauto. }
  destruct (String.eqb url "") eqn:Hurl; calm.
  { apply String.eqb_eq in Hurl as ->.
    intros [= <- <-]. eexists; split; [done|]. do 3 right; left. eauto. }
  assert (url ≠ "") as Hne by (by apply String.eqb_neq).
  destruct (URL_canParse url) eqn:Hcan; calm; rewrite ?Hurl; calm.
  2:{ destruct (del env url) as [ [] | e ] eqn:Hdel; calm;
      intros [= <- <-]; (eexists; split; [done|]); do 4 right;
      exists p, url, [ConsoleError "Error processing RFP:"]; eexists;
      (split_and!; [done|done|reflexivity| |]); eauto 10. }
  destruct (ask env _) as [v|e] eqn:Hask; calm; rewrite ?Hurl; calm.
  2:{ destruct (del env url) as [ [] | e' ] eqn:Hdel; calm;
      intros [= <- <-]; (eexists; split; [done|]); do 4 right;
      exists p, url, [Generate (ProcessRfp.extract url); ConsoleError "Error processing RFP:"]; eexists;
      (split_and!; [done|done|reflexivity| |]); eauto 10. }
  destruct (parse ProcessRfp.rfpSchema v) as [out|] eqn:Hparse; calm; rewrite ?Hurl; calm.
  - destruct (del env url) as [ [] | e' ] eqn:Hdel; calm;
      intros [= <- <-]; (eexists; split; [done|]); do 4 right;
      exists p, url, [Generate (ProcessRfp.extract url)]; eexists;
      (split_and!; [done|done|reflexivity| |]); eauto 12.
  - destruct (del env url) as [ [] | e' ] eqn:Hdel; calm;
      intros [= <- <-]; (eexists; split; [done|]); do 4 right;
      exists p, url, [Generate (ProcessRfp.extract url); ConsoleError "Error processing RFP:"]; eexists;
      (split_and!; [done|done|reflexivity| |]); eauto 12.
Qed.

Lemma bid_cases request fr o :
  ProcessBid.POST env request frame0 = (fr, o) →
  ∃ resp, o = Ret resp ∧
  (   (calls fr = [] ∧ status resp = 400%Z)
    ∨ (∃ e, formData request = Throw e ∧ calls fr = [ConsoleError "Error processing bid:"] ∧ status resp = 500%Z)
    ∨ (∃ p, (∃ e, put env p = Throw e) ∧ calls fr = [Put p; ConsoleError "Error processing bid:"] ∧ status resp = 500%Z)
    ∨ (∃ p, put env p = Ret "" ∧ calls fr = [Put p; ConsoleError "Error processing bid:"] ∧ status resp = 500%Z)
    ∨ (∃ p url middle after,
         put env p = Ret url ∧ url ≠ "" ∧
         calls fr = Put p :: middle ++ Del url :: after ∧
         (after = [] ∧ del env url = Ret () ∨ after = [cleanup_log] ∧ ∃ e, del env url = Throw e) ∧
         (   (middle = [ConsoleError "Error processing bid:"] ∧ status resp = 500%Z)
           ∨ (∃ c e, middle = [Generate c; ConsoleError "Error processing bid:"]
                   ∧ output c = ProcessBid.bidSchema
                   ∧ ask env c = Failure e ∧ status resp = 500%Z)
           ∨ (∃ c v, middle = [Generate c; ConsoleError "Error processing bid:"]
                   ∧ output c = ProcessBid.bidSchema
                   ∧ ask env c = Reply v
                   ∧ parse ProcessBid.bidSchema v = None ∧ status resp = 500%Z)
           ∨ (∃ c v out, middle = [Generate c]
                   ∧ output c = ProcessBid.bidSchema
                   ∧ ask env c = Reply v
                   ∧ parse ProcessBid.bidSchema v = Some out
                   ∧ resp = NextResponse_json (VObj [("output", out)]) 200)))).
Proof.
  unfold ProcessBid.POST. run.
  destruct (formData request) as [fields|e] eqn:Hform; calm.
  2:{ intros [= <- <-]. eexists; split; [done|]. right; left. eauto. }
  destruct (absent (assoc "file" fields)) eqn:Habs; calm.
  { intros [= <- <-]. eexists; split; [done|]. left. eauto. }
  destruct (absent (assoc "requirements" fields)) eqn:Hreq; calm.
  { intros [= <- <-]. eexists; split; [done|]. left. eauto. }
  destruct (ProcessBid.parse_entry _) as [requirements|e] eqn:Hparsed; calm.
  2:{ intros [= <- <-]. eexists; split; [done|]. left. eauto. }
  case_bool_decide as Htype; calm.
  2:{ intros [= <- <-]. eexists; split; [done|]. left. eauto. }
  destruct (size_exceeds _ _) eqn:Hsize; calm.
  { intros [= <- <-]. eexists; split; [done|]. left. eauto. }
  destruct (assoc "file" fields) as [[file|t]|] eqn:Hfile; try done. calm.
  set (p := "bid-" +:+ _).
  destruct (put env p) as [url|e] eqn:Hput; calm.
  2:{ intros [= <- <-]. eexists; split; [done|]. do 2 right; left. eauto. }
  destruct (String.eqb url "") eqn:Hurl; calm.
  { apply String.eqb_eq in Hurl as ->.
    intros [= <- <-]. eexists; split; [done|]. do 3 right; left. eauto. }
  assert (url ≠ "") as Hne by (by apply String.eqb_neq).
  destruct (ProcessBid.requirementsText requirements) as [text|e] eqn:Htext; calm; rewrite ?Hurl; calm.
  2:{ destruct (del env url) as [ [] | e' ] eqn:Hdel; calm;
      intros [= <- <-]; (eexists; split; [done|]); do 4 right;
      exists p, url, [ConsoleError "Error processing bid:"]; eexists;
      (split_and!; [done|done|reflexivity| |]); eauto 10. }
  destruct (URL_canParse url) eqn:Hcan; calm; rewrite ?Hurl; calm.
  2:{ destruct (del env url) as [ [] | e ] eqn:Hdel; calm;
      intros [= <- <-]; (eexists; split; [done|]); do 4 right;
      exists p, url, [ConsoleError "Error processing bid:"]; eexists;
      (split_and!; [done|done|reflexivity| |]); eauto 10. }
  destruct (ask env _) as [v|e] eqn:Hask; calm; rewrite ?Hurl; calm.
  2:{ destruct (del env url) as [ [] | e' ] eqn:Hdel; calm;
      intros [= <- <-]; (eexists; split; [done|]); do 4 right;
      exists p, url, [Generate (ProcessBid.assess url text); ConsoleError "Error processing bid:"]; eexists;
      (split_and!; [done|done|reflexivity| |]); eauto 12. }
  destruct (parse ProcessBid.bidSchema v) as [out|] eqn:Hparse; calm; rewrite ?Hurl; calm.
  - destruct (del env url) as [ [] | e' ] eqn:Hdel; calm;
      intros [= <- <-]; (eexists; split; [done|]); do 4 right;
      exists p, url, [Generate (ProcessBid.assess url text)]; eexists;
      (split_and!; [done|done|reflexivity|eauto 6|do 3 right; eauto 12]).
  - destruct (del env url) as [ [] | e' ] eqn:Hdel; calm;
      intros [= <- <-]; (eexists; split; [done|]); do 4 right;
      exists p, url, [Generate (ProcessBid.assess url text); ConsoleError "Error processing bid:"]; eexists;
      (split_and!; [done|done|reflexivity|eauto 6|right; right; left; eauto 12]).
Qed.

Lemma rfp_del_irrelevant request d :
  (ProcessRfp.POST (with_del env d) request frame0).2 = (ProcessRfp.POST env request frame0).2.
Proof.
  unfold ProcessRfp.POST. run.
  destruct (formData request) as [fields|e] eqn:Hform; calm; [|reflexivity].
  destruct (absent _) eqn:Habs; calm; [reflexivity|].
  case_bool_decide as Htype; calm; [|reflexivity].
  destruct (size_exceeds _ _) eqn:Hsize; calm; [reflexivity|].
  destruct (assoc "file" fields) as [[file|t]|] eqn:Hfile; try done. calm.
  set (p := "rfp-" +:+ _).
  destruct (put env p) as [url|e] eqn:Hput; calm; [|reflexivity].
  destruct (String.eqb url "") eqn:Hurl; calm; rewrite ?Hurl; calm; [reflexivity|].
  destruct (URL_canParse url) eqn:Hcan; calm; rewrite ?Hurl; calm.
  2:{ destruct (del env url) as [ [] | e1 ], (d url) as [ [] | e2 ]; reflexivity. }
  destruct (ask env _) as [v|e] eqn:Hask; calm; rewrite ?Hurl; calm.
  2:{ destruct (del env url) as [ [] | e1 ], (d url) as [ [] | e2 ]; reflexivity. }
  destruct (parse ProcessRfp.rfpSchema v) as [out|] eqn:Hparse; calm; rewrite ?Hurl; calm;
    destruct (del env url) as [ [] | e1 ], (d url) as [ [] | e2 ]; reflexivity.
Qed.

Lemma bid_del_irrelevant request d :
  (ProcessBid.POST (with_del env d) request frame0).2 = (ProcessBid.POST env request frame0).2.
Proof.
  unfold ProcessBid.POST. run.
  destruct (formData request) as [fields|e] eqn:Hform; calm; [|reflexivity].
  destruct (absent (assoc "file" fields)) eqn:Habs; calm; [reflexivity|].
  destruct (absent (assoc "requirements" fields)) eqn:Hreq; calm; [reflexivity|].
  destruct (ProcessBid.parse_entry _) as [requirements|e] eqn:Hparsed; calm; [|reflexivity].
  case_bool_decide as Htype; calm; [|reflexivity].
  destruct (size_exceeds _ _) eqn:Hsize; calm; [reflexivity|].
  destruct (assoc "file" fields) as [[file|t]|] eqn:Hfile; try done. calm.
  set (p := "bid-" +:+ _).
  destruct (put env p) as [url|e] eqn:Hput; calm; [|reflexivity].
  destruct (String.eqb url "") eqn:Hurl; calm; rewrite ?Hurl; calm; [reflexivity|].
  destruct (ProcessBid.requirementsText requirements) as [text|e] eqn:Htext; calm; rewrite ?Hurl; calm.
  2:{ destruct (del env url) as [ [] | e1 ], (d url) as [ [] | e2 ]; reflexivity. }
  destruct (URL_canParse url) eqn:Hcan; calm; rewrite ?Hurl; calm.
  2:{ destruct (del env url) as [ [] | e1 ], (d url) as [ [] | e2 ]; reflexivity. }
  destruct (ask env _) as [v|e] eqn:Hask; calm; rewrite ?Hurl; calm.
  2:{ destruct (del env url) as [ [] | e1 ], (d url) as [ [] | e2 ]; reflexivity. }
  destruct (parse ProcessBid.bidSchema v) as [out|] eqn:Hparse; calm; rewrite ?Hurl; calm;
    destruct (del env url) as [ [] | e1 ], (d url) as [ [] | e2 ]; reflexivity.
Qed.
End Uploads.

(** ** Validation comes before staging *)

Section Staging.

(** C5.  A file that is not a PDF, or that is larger than 10 MiB, is answered
    with status 400 by the extraction route and by the assessment route, and
    neither route has called the blob store (or anything else) by then. *)
Theorem invalid_upload_is_rejected_before_staging
  `{!Engine} (env : Env) (request : NextRequest) fields file :
  formData request = Ret fields →
  assoc "file" fields = Some (EFile file) →
  type file ≠ "application/pdf" ∨ (10 * 1024 * 1024 < size file)%Z →
  (∃ fr resp,
     ProcessRfp.POST env request frame0 = (fr, Ret resp)
     ∧ status resp = 400%Z ∧ ok resp = false ∧ calls fr = [])
  ∧ (∃ fr resp,
     ProcessBid.POST env request frame0 = (fr, Ret resp)
     ∧ status resp = 400%Z ∧ ok resp = false ∧ calls fr = []).
Proof.
  intros Hform Hfile Hbad.
  assert (absent (Some (EFile file)) = false) as Habs by done.
  assert (negb (bool_decide (type_of (Some (EFile file)) = Some "application/pdf"))
          || size_exceeds (Some (EFile file)) ProcessRfp.maxSize = true) as Hrej.
  { unfold type_of, size_exceeds. case_bool_decide as Ht; simpl; [|done].
    destruct Hbad as [Hbad|Hbad]; [congruence|]. by apply Z.ltb_lt. }
  split.
  - unfold ProcessRfp.POST. run. rewrite Hform. calm. rewrite Hfile, Habs. calm.
    apply orb_true_iff in Hrej as [Hrej|Hrej]; rewrite ?Hrej; calm.
    + eauto 10.
    + destruct (negb _); calm; rewrite ?Hrej; calm; eauto 10.
  - unfold ProcessBid.POST. run. rewrite Hform. calm. rewrite Hfile, Habs. calm.
    destruct (absent (assoc "requirements" fields)); calm; [eauto 10|].
    destruct (ProcessBid.parse_entry _); calm; [|eauto 10].
    apply orb_true_iff in Hrej as [Hrej|Hrej]; rewrite ?Hrej; calm.
    + eauto 10.
    + destruct (negb _); calm; [eauto 10|].
      unfold ProcessBid.maxSize. unfold ProcessRfp.maxSize in Hrej. rewrite Hrej. calm. eauto 10.
Qed.

(** ** Cleanup *)


Lemma put_in_calls_inv p middle url after pathname :
  Put pathname ∈ (Put p :: middle ++ Del url :: after)%list →
  (∀ ev, ev ∈ middle → (∃ c, ev = Generate c) ∨ (∃ l, ev = ConsoleError l)) →
  (∀ ev, ev ∈ after → ev = cleanup_log) →
  pathname = p.
Proof.
  intros Hin Hmid Hafter.
  apply elem_of_cons in Hin as [[= ->]|Hin]; [done|].
  apply elem_of_app in Hin as [Hin|Hin].
  - apply Hmid in Hin as [[c ?]|[l ?]]; done.
  - apply elem_of_cons in Hin as [?|Hin]; [done|]. by apply Hafter in Hin.
Qed.

(** C6.  When a route staged the upload, the blob it staged is deleted:
    the call log holds exactly one deletion of the staged URL, after every
    call to the model, followed at most by the log line of a failed
    deletion.  The route answers with a response in every case, and the
    response is the same whatever the deletion does. *)
Theorem staged_blob_is_deleted_and_cleanup_is_silent
  `{!Engine} POST (env : Env) (request : NextRequest) fr o pathname url :
  uploading POST →
  POST env request frame0 = (fr, o) →
  Put pathname ∈ calls fr →
  put env pathname = Ret url →
  url ≠ "" →
  (∃ before after,
     calls fr = (before ++ Del url :: after)%list
     ∧ (Del url ∉ before)
     ∧ (∀ c, Generate c ∈ calls fr → Generate c ∈ before)
     ∧ (∀ ev, ev ∈ after → ev = cleanup_log))
  ∧ (∃ resp, o = Ret resp)
  ∧ (∀ d, (POST (with_del env d) request frame0).2 = o).
Proof.
  intros Hroute Hrun Hput Hstaged Hurl.
  assert (∀ d, (POST (with_del env d) request frame0).2 = o) as Hdel.
  { intros d. destruct Hroute.
    - by rewrite rfp_del_irrelevant, Hrun.
    - by rewrite bid_del_irrelevant, Hrun. }
  assert (∃ resp, o = Ret resp ∧
    (calls fr = [] ∨
     (∃ l, calls fr = [ConsoleError l]) ∨
     (∃ p l, (put env p = Ret "" ∨ ∃ e, put env p = Throw e) ∧ calls fr = [Put p; ConsoleError l]) ∨
     (∃ p url middle after,
        put env p = Ret url ∧ url ≠ "" ∧
        calls fr = (Put p :: middle ++ Del url :: after)%list ∧
        (∀ ev, ev ∈ after → ev = cleanup_log) ∧
        (∀ ev, ev ∈ middle → (∃ c, ev = Generate c) ∨ (∃ l, ev = ConsoleError l)))))
    as (resp & -> & Hcases).
  { destruct Hroute.
    - apply rfp_cases in Hrun as (resp & -> & Hc). exists resp. split; [done|].
      destruct Hc as [[? _]|[(e & _ & ? & _)|[(p & [e ?] & ? & _)|[(p & ? & ? & _)|Hc]]]];
        [eauto 10..|].
      destruct Hc as (p & u & middle & after & ? & ? & ? & Hafter & Hmid).
      do 3 right. exists p, u, middle, after. split_and!; try done.
      + intros ev Hev. destruct Hafter as [[-> _]|[-> _]]; list_cases Hev; done.
      + intros ev Hev.
        destruct Hmid as [(-> & _)|[(e & -> & _)|[(v & -> & _)|(v & out & -> & _)]]];
          list_cases Hev; subst; eauto.
    - apply bid_cases in Hrun as (resp & -> & Hc). exists resp. split; [done|].
      destruct Hc as [[? _]|[(e & _ & ? & _)|[(p & [e ?] & ? & _)|[(p & ? & ? & _)|Hc]]]];
        [eauto 10..|].
      destruct Hc as (p & u & middle & after & ? & ? & ? & Hafter & Hmid).
      do 3 right. exists p, u, middle, after. split_and!; try done.
      + intros ev Hev. destruct Hafter as [[-> _]|[-> _]]; list_cases Hev; done.
      + intros ev Hev.
        destruct Hmid as [(-> & _)|[(c & e & -> & _)|[(c & v & -> & _)|(c & v & out & -> & _)]]];
          list_cases Hev; subst; eauto. }
  split; [|eauto].
  destruct Hcases as [Hc|[[l Hc]|[(p & l & Hp & Hc)|Hc]]].
  - rewrite Hc in Hput. by apply elem_of_nil in Hput.
  - rewrite Hc in Hput. list_cases Hput; done.
  - rewrite Hc in Hput. assert (pathname = p) as ->.
    { list_cases Hput; congruence. }
    destruct Hp as [Hp|[e Hp]]; congruence.
  - destruct Hc as (p & u & middle & after & Hp & Hu & Hcalls & Hafter & Hmid).
    rewrite Hcalls in Hput.
    pose proof (put_in_calls_inv _ _ _ _ _ Hput Hmid Hafter) as ->.
    assert (u = url) as -> by congruence.
    exists (Put p :: middle), after. split_and!.
    + by rewrite Hcalls.
    + intros Hin. apply elem_of_cons in Hin as [?|Hin]; [done|].
      apply Hmid in Hin as [[c ?]|[l ?]]; done.
    + intros c Hc. rewrite Hcalls in Hc.
      apply elem_of_cons in Hc as [?|Hc]; [done|].
      apply elem_of_app in Hc as [Hc|Hc]; [by apply elem_of_cons; right|].
      apply elem_of_cons in Hc as [?|Hc]; [done|]. by apply Hafter in Hc.
    + done.
Qed.

End Staging.

(** ** The analysis route, case by case *)

Section Analysis.

Context `{!Engine} (env : Env).

Lemma analyze_cases request fr o :
  AnalyzeAll.POST env request frame0 = (fr, o) →
  ∃ resp, o = Ret resp ∧
  (   (calls fr = [] ∧ status resp = 400%Z)
    ∨ (calls fr = [ConsoleError "Error analyzing bids:"] ∧ status resp = 500%Z)
    ∨ (∃ c, calls fr = [Generate c; ConsoleError "Error analyzing bids:"]
            ∧ output c = AnalyzeAll.analysisSchema
            ∧ (   (∃ e, ask env c = Failure e)
                ∨ (∃ v, ask env c = Reply v ∧ parse AnalyzeAll.analysisSchema v = None))
            ∧ status resp = 500%Z)
    ∨ (∃ c v out, calls fr = [Generate c]
            ∧ output c = AnalyzeAll.analysisSchema
            ∧ ask env c = Reply v
            ∧ parse AnalyzeAll.analysisSchema v = Some out
            ∧ resp = NextResponse_json (VObj [("output", out)]) 200)).
Proof.
  unfold AnalyzeAll.POST. unfold_route; hush.
  destruct (json request) as [data|e]; hush.
  2:{ intros [= <- <-]. eexists; split; [done|]. right; left. eauto. }
  destruct (get data "rfp") as [rfp|e]; hush.
  2:{ intros [= <- <-]. eexists; split; [done|]. right; left. eauto. }
  destruct (get data "bids") as [bids|e]; hush.
  2:{ intros [= <- <-]. eexists; split; [done|]. right; left. eauto. }
  destruct (truthy rfp); hush.
  2:{ intros [= <- <-]. eexists; split; [done|]. left. eauto. }
  destruct bids as [| | | | |[|bid rest]|];
    try (intros [= <- <-]; eexists; split; [done|]; left; by eauto).
  destruct (AnalyzeAll.rfpRequirementsText rfp) as [rfpText|e]; hush.
  2:{ intros [= <- <-]. eexists; split; [done|]. right; left. eauto. }
  destruct (AnalyzeAll.bidsSummary (bid :: rest)) as [summaries|e]; hush.
  2:{ intros [= <- <-]. eexists; split; [done|]. right; left. eauto. }
  destruct (outcome_bind _ _ ToString (get rfp "title")) as [title|e]; hush.
  2:{ intros [= <- <-]. eexists; split; [done|]. right; left. eauto. }
  destruct (ask env _) as [v|e] eqn:Hask; hush.
  2:{ intros [= <- <-]. eexists; split; [done|]. do 2 right; left.
      eexists. split_and!; [done|done|eauto|done]. }
  destruct (parse AnalyzeAll.analysisSchema v) as [out|] eqn:Hparse; hush.
  - intros [= <- <-]. eexists; split; [done|]. do 3 right. eauto 10.
  - intros [= <- <-]. eexists; split; [done|]. do 2 right; left.
    eexists. split_and!; [done|done|eauto|done].
Qed.

End Analysis.

(** ** What the schemas let through *)

Section Replies.


Lemma parse_company_questions v o :
  parse (z_object [("companyName", z_string); ("openQuestions", z_array z_string)]) v = Some o →
  ∃ q, o = CompanyQuestions.encode q.
Proof.
  intros H. apply parse_object_inv in H as (fs & r & -> & -> & H).
  repeat (apply parse_fields_cons in H as (? & ? & -> & ? & H)).
  apply parse_fields_nil in H as ->.
  match goal with
  | H : parse z_string _ = Some _ |- _ => apply parse_string_inv in H as (name & _ & ->)
  end.
  match goal with
  | H : parse (z_array _) _ = Some _ |- _ =>
      apply parse_array_inv in H as (? & ys & _ & -> & Hys)
  end.
  assert (∃ qs, ys = VStr <$> qs) as [qs ->].
  { clear -Hys. induction Hys as [|x y xs ys Hxy _ [qs ->]].
    - by exists [].
    - apply parse_string_inv in Hxy as (s & _ & ->). by exists (s :: qs). }
  by exists (CompanyQuestions.Build_t name qs).
Qed.

Lemma parse_analysis v o :
  parse AnalyzeAll.analysisSchema v = Some o →
  ∃ recommendation reason questions,
    o = VObj [("recommendation", VStr recommendation);
              ("recommendationReason", VStr reason);
              ("openQuestions", VArr (CompanyQuestions.encode <$> questions))].
Proof.
  intros H. apply parse_object_inv in H as (fs & r & -> & -> & H).
  repeat (apply parse_fields_cons in H as (? & ? & -> & ? & H)).
  apply parse_fields_nil in H as ->.
  repeat match goal with
  | H : parse z_string _ = Some _ |- _ => apply parse_string_inv in H as (? & _ & ->)
  end.
  match goal with
  | H : parse (z_array _) _ = Some _ |- _ =>
      apply parse_array_inv in H as (? & ys & _ & -> & Hys)
  end.
  assert (∃ qs, ys = CompanyQuestions.encode <$> qs) as [qs ->].
  { clear -Hys. induction Hys as [|x y xs ys Hxy _ [qs ->]].
    - by exists [].
    - apply parse_company_questions in Hxy as [q ->]. by exists (q :: qs). }
  eauto.
Qed.

Lemma parse_analysis_documented a :
  parse AnalyzeAll.analysisSchema (Analysis.encode a) = None.
Proof. reflexivity. Qed.

(** C2, as the code has it.  The route always answers; when it answers with
    success the output is a record [{recommendation, recommendationReason,
    openQuestions}], which is never the record [{recommendation,
    mainRecommendationReason, supportingRecommendationPoints,
    openQuestions}] the page declares; and a reply of the model that has
    that declared shape makes the route answer 500. *)
Theorem analysis_route_answers_another_shape
  `{!Engine} (env : Env) (request : NextRequest) :
  ∃ fr resp,
    AnalyzeAll.POST env request frame0 = (fr, Ret resp)
    ∧ (ok resp = true →
         (∃ recommendation reason questions,
            body resp =
              VObj [("output",
                     VObj [("recommendation", VStr recommendation);
                           ("recommendationReason", VStr reason);
                           ("openQuestions",
                             VArr (CompanyQuestions.encode <$> questions))])])
         ∧ (∀ a, body resp ≠ VObj [("output", Analysis.encode a)])
         ∧ (∀ out, body resp = VObj [("output", out)] → ¬ Shape.analysis out))
    ∧ (∀ c a,
         Generate c ∈ calls fr →
         ask env c = Reply (Analysis.encode a) →
         status resp = 500%Z).
Proof.
  destruct (AnalyzeAll.POST env request frame0) as [fr o] eqn:Hrun.
  apply analyze_cases in Hrun as (resp & -> & Hc).
  exists fr, resp. split; [done|].
  destruct Hc as [[Hcalls Hst]|[[Hcalls Hst]|[(c & Hcalls & Hout & Hask & Hst)|Hc]]].
  - split.
    + unfold ok. rewrite Hst. done.
    + intros c a Hin. rewrite Hcalls in Hin. by apply elem_of_nil in Hin.
  - split.
    + unfold ok. rewrite Hst. done.
    + done.
  - split.
    + unfold ok. rewrite Hst. done.
    + done.
  - destruct Hc as (c & v & out & Hcalls & Hout & Hask & Hparse & ->).
    apply parse_analysis in Hparse as Hshape.
    destruct Hshape as (r & reason & qs & ->).
    split.
    + intros _. split_and!.
      * eauto.
      * intros a. unfold NextResponse_json. simpl. intros [= ? ? ?]. 
      * unfold NextResponse_json. simpl. intros out [= <-].
        intros (_ & (fs & x & [= <-] & Hx & _) & _). discriminate Hx.
    + intros c' a Hin Hask'. rewrite Hcalls in Hin.
      apply list_elem_of_singleton in Hin as [= <-].
      rewrite Hask in Hask'. injection Hask' as ->.
      by rewrite parse_analysis_documented in Hparse.
Qed.

(** C3.  The assessment route always answers.  When it answers with success
    the output is a bid record [{title, rawText, totalCost, timeline,
    requirements: [{text, category, isSatisfied, reason}]}]; and when the
    reply of the model does not have the shape of such a record, the route
    answers 500 with the schema failure as its message. *)
Theorem assessment_output_is_a_bid_record
  `{!Engine} (env : Env) (request : NextRequest) :
  ∃ fr resp,
    ProcessBid.POST env request frame0 = (fr, Ret resp)
    ∧ (ok resp = true →
         ∃ bid, body resp = VObj [("output", Bid.encode bid)])
    ∧ (∀ c v,
         Generate c ∈ calls fr →
         ask env c = Reply v →
         ¬ Shape.bid v →
         status resp = 500%Z ∧ ok resp = false).
Proof.
  destruct (ProcessBid.POST env request frame0) as [fr o] eqn:Hrun.
  apply bid_cases in Hrun as (resp & -> & Hc).
  exists fr, resp. split; [done|].
  destruct Hc as [[Hcalls Hst]|[(e & _ & Hcalls & Hst)|[(p & _ & Hcalls & Hst)
                 |[(p & _ & Hcalls & Hst)|Hc]]]].
  - split; [unfold ok; by rewrite Hst|].
    intros c v Hin. rewrite Hcalls in Hin. by apply elem_of_nil in Hin.
  - split; [unfold ok; by rewrite Hst|]. intros. unfold ok. by rewrite Hst.
  - split; [unfold ok; by rewrite Hst|]. intros. unfold ok. by rewrite Hst.
  - split; [unfold ok; by rewrite Hst|]. intros. unfold ok. by rewrite Hst.
  - destruct Hc as (p & url & middle & after & Hput & Hurl & Hcalls & Hafter & Hmid).
    destruct Hmid as [(-> & Hst)|[(c & e & -> & _ & _ & Hst)
                     |[(c & v & -> & _ & _ & _ & Hst)|Hok]]].
    + split; [unfold ok; by rewrite Hst|]. intros. unfold ok. by rewrite Hst.
    + split; [unfold ok; by rewrite Hst|]. intros. unfold ok. by rewrite Hst.
    + split; [unfold ok; by rewrite Hst|]. intros. unfold ok. by rewrite Hst.
    + destruct Hok as (c & v & out & -> & Hout & Hask & Hparse & ->).
      split.
      * intros _. apply parse_bid in Hparse as [bid ->]. by exists bid.
      * intros c' v' Hin Hask' Hshape. exfalso. apply Hshape.
        assert (c' = c) as ->.
        { rewrite Hcalls in Hin.
          apply elem_of_cons in Hin as [?|Hin]; [done|].
          apply elem_of_app in Hin as [Hin|Hin].
          - by apply list_elem_of_singleton in Hin as [= ->].
          - apply elem_of_cons in Hin as [?|Hin]; [done|].
            destruct Hafter as [[-> _]|[-> _]].
            + by apply elem_of_nil in Hin.
            + by apply list_elem_of_singleton in Hin. }
        rewrite Hask in Hask'. injection Hask' as <-.
        apply accepts_bid. by eexists.
Qed.

End Replies.

(** ** The draft of the assessment route *)

(** The earlier draft of the assessment route, which the repository keeps
    under the path of the route: it reads nothing from the request, so it
    checks no file and stages nothing; it asks the model once, and a success
    carries a record of the draft's own schema [{title, description,
    requirements: [string], budget, timeline, contact}].  The statements
    about the assessment stage are about the later revision
    ([ProcessBid]), the one the page talks to. *)
Theorem draft_assessment_route_ignores_the_request
  (env : Env) (request other : NextRequest) :
  ProcessBidDraft.POST env request = ProcessBidDraft.POST env other
  ∧ ∃ fr o c,
      ProcessBidDraft.POST env request frame0 = (fr, o)
      ∧ calls fr = [Generate c]
      ∧ output c = ProcessBidDraft.bidSchema
      ∧ messages c = Parts [FilePart "dataURL goes here" "application/pdf"]
      ∧ ∀ resp, o = Ret resp →
          status resp = 200%Z
          ∧ ∃ v out,
              ask env c = Reply v
              ∧ parse ProcessBidDraft.bidSchema v = Some out
              ∧ body resp = VObj [("output", out)].
Proof.
  split; [reflexivity|].
  unfold ProcessBidDraft.POST. run.
  match goal with |- context [ask env ?c] => set (call := c) end.
  destruct (ask env call) as [v|e] eqn:Hask; calm.
  - destruct (parse ProcessBidDraft.bidSchema v) as [out|] eqn:Hparse; calm.
    + do 3 eexists. split; [reflexivity|]. split; [reflexivity|].
      split; [reflexivity|]. split; [reflexivity|].
      intros resp [= <-]. split; [reflexivity|]. exists v, out.
      split; [exact Hask|]. split; [exact Hparse|]. reflexivity.
    + do 3 eexists. split; [reflexivity|]. split; [reflexivity|].
      split; [reflexivity|]. split; [reflexivity|]. intros resp [=].
  - do 3 eexists. split; [reflexivity|]. split; [reflexivity|].
    split; [reflexivity|]. split; [reflexivity|]. intros resp [=].
Qed.

(** ** The enumerated requirements *)

Section Enumeration.
Context `{!Engine}.

Lemma ret_bind {A B} (a : A) (f : A → outcome B) : (Ret a ≫= f) = f a.
Proof. reflexivity. Qed.

Lemma each_requirement_line (k : nat) (reqs : list Requirement.t) :
  each (λ index req,
          category ← get req "category" ≫= ToString;
          text ← get req "text" ≫= ToString;
          Ret (pretty (index + 1)%nat +:+ ". [" +:+ category +:+ "] " +:+ text))
       k (Requirement.encode <$> reqs)
  = Ret (imap (λ i, enumerated_line (k + i + 1)) reqs).
Proof.
  revert k. induction reqs as [|r reqs IH]; intros k; [done|].
  cbn [fmap list_fmap each imap]. rewrite IH.
  replace (k + 0 + 1) with (k + 1) by lia.
  cbn. f_equal. f_equal.
  apply imap_ext. intros i x _. simpl. f_equal. lia.
Qed.

Lemma enumerate_length reqs : length (enumerate reqs) = length reqs.
Proof. apply length_imap. Qed.

Lemma enumerate_lookup reqs i r :
  reqs !! i = Some r → enumerate reqs !! i = Some (enumerated_line (i + 1) r).
Proof. intros Hr. unfold enumerate. by rewrite list_lookup_imap, Hr. Qed.

(** C8.  Both stages render a sequence of requirements as the lines
    ["{index}. [{category}] {text}"] joined by line feeds: one line for each
    requirement, in the order of the sequence, the first one numbered 1. *)
Theorem requirements_render_as_enumerated_lines (rfp : Rfp.t) :
  let reqs := Rfp.requirements rfp in
  ProcessBid.requirementsText (VArr (Requirement.encode <$> reqs))
    = Ret (String.concat LF (enumerate reqs))
  ∧ AnalyzeAll.rfpRequirementsText (Rfp.encode rfp)
    = Ret (String.concat LF (enumerate reqs))
  ∧ length (enumerate reqs) = length reqs
  ∧ ∀ i r,
      reqs !! i = Some r →
      enumerate reqs !! i
      = Some (pretty (i + 1)%nat +:+ ". [" +:+ Requirement.category r +:+ "] "
                +:+ Requirement.text r).
Proof.
  intros reqs. split_and!.
  - unfold ProcessBid.requirementsText.
    change (elements _ _ _) with (Ret (Requirement.encode <$> reqs)).
    by rewrite ret_bind, each_requirement_line, ret_bind.
  - unfold AnalyzeAll.rfpRequirementsText.
    change (get (Rfp.encode rfp) "requirements")
      with (Ret (VArr (Requirement.encode <$> reqs))).
    rewrite ret_bind.
    change (elements _ _ _) with (Ret (Requirement.encode <$> reqs)).
    by rewrite ret_bind, each_requirement_line, ret_bind.
  - apply enumerate_length.
  - intros i r Hr. by apply enumerate_lookup.
Qed.

End Enumeration.

(** ** The page *)

Import Page Page_facts.

(** Computes what is known of the page without opening the store and the
    conversions of values. *)
Ltac page :=
  cbn -[delete insert lookup JSON_stringify ToString validateFile Object_is].

(** *** Restoring the project *)

Section Restore.
Context `{!Engine}.
#[local] Arguments mbind {_ _ _ _} _ _ /.
#[local] Arguments mret {_ _ _} _ /.

Lemma restored_only_present data k initially :
  restored data k initially ≠ initially →
  ∃ fs, data = VObj fs ∧ assoc k fs = Some (restored data k initially)
        ∧ truthy (restored data k initially) = true.
Proof.
  unfold restored. destruct data as [| | | | | |fs]; try done.
  destruct (assoc k fs) as [x|] eqn:Hx; [|done].
  destruct (truthy x) eqn:Ht; [|done]. eauto.
Qed.

(** C10.  Whatever the local store holds, the restore at startup returns
    normally and leaves the store as it is.  With no entry, or an empty one,
    nothing happens.  With an entry that does not parse the state stays the
    initial one and the failure is logged.  With an entry that parses, each
    of [rfpData], [bids] and [analysisData] is restored exactly when the
    parsed data is an object that binds it to a truthy value; every other
    part of the state keeps its initial value. *)
Theorem restore_never_throws_and_restores_what_is_stored
  (store : gmap string text) (log : list string) :
  ∃ b,
    load_effect (mounted store log) = (b, Ret ())
    ∧ localStorage b = store
    ∧ (store !! STORAGE_KEY = None ∨ store !! STORAGE_KEY = Some (Unparseable "") →
         b = mounted store log)
    ∧ (∀ raw, store !! STORAGE_KEY = Some (Unparseable raw) → raw ≠ "" →
         home b = initial
         ∧ console b = (log ++ ["Failed to load stored data:"])%list)
    ∧ (∀ data, store !! STORAGE_KEY = Some (Json data) →
         home b =
           {| rfpFile := None; isRfpUploading := false;
              rfpData := restored data "rfpData" VNull;
              bidFile := None; isBidUploading := false;
              bids := restored data "bids" (VArr []);
              expandedBidIndex := None;
              analysisData := restored data "analysisData" VNull;
              isAnalyzing := false; error := VNull |}
         ∧ (∀ k initially,
              restored data k initially ≠ initially →
              ∃ fs, data = VObj fs
                    ∧ assoc k fs = Some (restored data k initially))).
Proof.
  unfold load_effect, mounted, at_rest. page.
  destruct (store !! STORAGE_KEY) as [[raw|data]|] eqn:Hstore; page.
  - destruct (String.eqb raw "") eqn:Hraw; page.
    + apply String.eqb_eq in Hraw as ->.
      eexists. split_and!; [done|done|done| |done].
      by intros raw [= <-].
    + apply String.eqb_neq in Hraw.
      eexists. split_and!; [done|done| | |done].
      * intros [?|[= ->]]; done.
      * by intros raw' [= <-].
  - assert (∀ k initially,
              restored data k initially ≠ initially →
              ∃ fs, data = VObj fs
                    ∧ assoc k fs = Some (restored data k initially)) as Honly.
    { intros k i Hk. apply restored_only_present in Hk as (fs & ? & ? & _). eauto. }
    destruct data as [| |flag|x|s|xs|fs]; page;
      try (eexists; split_and!; [done|done|by intros [?|?]|done|];
           intros ? [= <-]; by split).
    destruct (assoc "rfpData" fs) as [r|] eqn:Hr; page;
      [destruct (truthy r) eqn:Htr; page|];
      (destruct (assoc "bids" fs) as [bs|] eqn:Hbs; page;
        [destruct (truthy bs) eqn:Htbs; page|]);
      (destruct (assoc "analysisData" fs) as [a|] eqn:Ha; page;
        [destruct (truthy a) eqn:Hta; page|]);
      (eexists; split_and!; [done|done|by intros [?|?]|done|];
       intros ? [= <-]; split; [|done]; unfold restored;
       by rewrite Hr, Hbs, Ha, ?Htr, ?Htbs, ?Hta).
  - eexists. split_and!; done.
Qed.

End Restore.

(** *** Starting a new project *)

Section Reset.
Context `{!Engine}.
#[local] Arguments mbind {_ _ _ _} _ _ /.
#[local] Arguments mret {_ _ _} _ /.

Lemma zero_is_not_positive : SFltb (S754_zero false) (of_nat 0) = false.
Proof. reflexivity. Qed.

Lemma Object_is_array a xs : Object_is a (VArr xs) = false.
Proof. by destruct a as [| | |[]| | |]. Qed.


(** C9.  From any state of the page and any content of the store, starting a
    new project leaves no RFP, no bid and no analysis, and removes the entry
    of the project from the store (the saving effect that runs afterwards
    writes nothing).  Whatever RFP file is selected and uploaded next, and
    whatever the network answers, the project then holds no bid and no
    analysis, and the store holds either nothing or exactly that new
    project. *)
Theorem start_new_project_clears_everything
  (h : Home) (store : gmap string text) (log : list string)
  (fetch : request → outcome FetchResponse) (file : File) :
  ∃ b1,
    (handleStartNewProject;; commit) (at_rest h store log) = (b1, Ret ())
    ∧ rfpData (home b1) = VNull
    ∧ bids (home b1) = VArr []
    ∧ analysisData (home b1) = VNull
    ∧ rfpFile (home b1) = None ∧ bidFile (home b1) = None
    ∧ error (home b1) = VNull
    ∧ localStorage b1 = delete STORAGE_KEY store
    ∧ localStorage b1 !! STORAGE_KEY = None
    ∧ stale b1 = false ∧ appended b1 = []
    ∧ ∃ b2,
        (handleRfpFileSelect file;; commit;; handleRfpUpload fetch;; commit) b1
          = (b2, Ret ())
        ∧ bids (home b2) = VArr []
        ∧ analysisData (home b2) = VNull
        ∧ (localStorage b2 !! STORAGE_KEY = None
           ∨ localStorage b2 !! STORAGE_KEY
             = Some (JSON_stringify
                       (VObj [("rfpData", rfpData (home b2));
                              ("bids", VArr []);
                              ("analysisData", VNull)]))).
Proof.
  unfold at_rest. page.
  rewrite Object_is_array, !orb_true_r, orb_true_l. page.
  unfold save_effect. page. rewrite zero_is_not_positive. page.
  eexists. split; [reflexivity|]. page.
  split_and!; [done..|apply lookup_delete_eq|done|done|].
  assert (delete STORAGE_KEY store !! STORAGE_KEY = None) as Hgone
    by apply lookup_delete_eq.
  unfold handleRfpFileSelect.
  destruct (validateFile file) as [msg|] eqn:Hvalid; page.
  { eexists. split; [reflexivity|]. split_and!; [done..|]. by left. }
  destruct (fetch _) as [response|e]; page.
  2:{ eexists. split; [reflexivity|]. split_and!; [done..|]. by left. }
  unfold throw_reported.
  destruct (ok response); page.
  2:{ destruct (json response) as [errorData|e]; page.
      2:{ eexists. split; [reflexivity|]. split_and!; [done..|]. by left. }
      destruct (get errorData "error") as [reported|e]; page.
      2:{ eexists. split; [reflexivity|]. split_and!; [done..|]. by left. }
      destruct (ToString _) as [message|e]; page;
        (eexists; (split; [reflexivity|]); split_and!; [done..|]; by left). }
  destruct (json response) as [data|e]; page.
  2:{ eexists. split; [reflexivity|]. split_and!; [done..|]. by left. }
  destruct (get data "output") as [output|e]; page.
  2:{ eexists. split; [reflexivity|]. split_and!; [done..|]. by left. }
  destruct (Object_is VNull output) eqn:Hsame; page.
  { eexists. split; [reflexivity|]. split_and!; [done..|]. by left. }
  unfold save_effect. page.
  destruct (truthy output) eqn:Htruthy; page.
  - eexists. split; [reflexivity|]. split_and!; [done..|]. right. apply lookup_insert_eq.
  - rewrite zero_is_not_positive. page.
    eexists. split; [reflexivity|]. split_and!; [done..|]. by left.
Qed.

End Reset.

(** *** A failed stage *)
Section Failure.
Context `{!Engine}.
#[local] Arguments mbind {_ _ _ _} _ _ /.
#[local] Arguments mret {_ _ _} _ /.

Lemma failed_rfp_upload fetch h store log :
  (∀ req, unsuccessful (fetch req) = true) →
  ∃ h',
    (handleRfpUpload fetch;; commit) (at_rest h store log)
      = (at_rest h' store log, Ret ())
    ∧ rfpData h' = rfpData h ∧ bids h' = bids h ∧ analysisData h' = analysisData h.
Proof.
  intros Hfail. unfold at_rest, handleRfpUpload. page.
  destruct (rfpFile h) as [file|]; page; [|by eexists].
  set (req := PostForm _ _). specialize (Hfail req).
  destruct (fetch req) as [response|e]; page.
  2:{ by eexists. }
  simpl in Hfail. apply negb_true_iff in Hfail. rewrite Hfail. page.
  unfold throw_reported. page.
  destruct (json response) as [errorData|e]; page; [|by eexists].
  destruct (get errorData "error") as [reported|e]; page; [|by eexists].
  destruct (ToString _) as [message|e]; page; by eexists.
Qed.

Lemma failed_bid_upload fetch h store log :
  (∀ req, unsuccessful (fetch req) = true) →
  ∃ h',
    (handleBidUpload fetch;; commit) (at_rest h store log)
      = (at_rest h' store log, Ret ())
    ∧ rfpData h' = rfpData h ∧ bids h' = bids h ∧ analysisData h' = analysisData h.
Proof.
  intros Hfail. unfold at_rest, handleBidUpload. page.
  destruct (rfpFile h) as [file0|] eqn:Hf0.
  all: destruct (bidFile h) as [file|]; page; [|by eexists].
  all: destruct (truthy (rfpData h)); page; [|by eexists].
  all: destruct (get (rfpData h) "requirements") as [requirements|e]; page; [|by eexists].
  all: set (req := PostForm _ _); specialize (Hfail req).
  all: destruct (fetch req) as [response|e]; page; [|by eexists].
  all: simpl in Hfail; apply negb_true_iff in Hfail; rewrite Hfail; page.
  all: unfold throw_reported; page.
  all: destruct (json response) as [errorData|e]; page; [|by eexists].
  all: destruct (get errorData "error") as [reported|e]; page; [|by eexists].
  all: destruct (ToString _) as [message|e]; page; by eexists.
Qed.

Lemma failed_analysis fetch h store log :
  (∀ req, unsuccessful (fetch req) = true) →
  ∃ h' o,
    (handleAnalyzeAll fetch;; commit) (at_rest h store log)
      = (at_rest h' store log, o)
    ∧ rfpData h' = rfpData h ∧ bids h' = bids h ∧ analysisData h' = analysisData h.
Proof.
  intros Hfail. unfold at_rest, handleAnalyzeAll. page.
  destruct (truthy (rfpData h)); page; [|by do 2 eexists].
  destruct (get (bids h) "length") as [n|e]; page; [|by do 2 eexists].
  destruct (is_zero n); page; [by do 2 eexists|].
  set (req := PostJson _ _). specialize (Hfail req).
  destruct (fetch req) as [response|e]; page; [|by do 2 eexists].
  simpl in Hfail. apply negb_true_iff in Hfail. rewrite Hfail. page.
  unfold throw_reported. page.
  destruct (json response) as [errorData|e]; page; [|by do 2 eexists].
  destruct (get errorData "error") as [reported|e]; page; [|by do 2 eexists].
  destruct (ToString _) as [message|e]; page; by do 2 eexists.
Qed.

End Failure.

(** C7.  When the request of a stage does not succeed, the handler of that
    stage and the render that follows leave the RFP, the bids and the
    analysis as they were, append no bid, and leave the store as it was. *)
Theorem failed_stage_leaves_the_project_untouched
  `{!Engine} (fetch : request → outcome FetchResponse)
  (h : Home) (store : gmap string text) (log : list string) :
  (∀ req, unsuccessful (fetch req) = true) →
  let b := at_rest h store log in
  (∃ b', (handleRfpUpload fetch;; commit) b = (b', Ret ())
         ∧ project b' = project b ∧ localStorage b' = store ∧ appended b' = [])
  ∧ (∃ b', (handleBidUpload fetch;; commit) b = (b', Ret ())
         ∧ project b' = project b ∧ localStorage b' = store ∧ appended b' = [])
  ∧ (∃ b' o, (handleAnalyzeAll fetch;; commit) b = (b', o)
         ∧ project b' = project b ∧ localStorage b' = store ∧ appended b' = []).
Proof.
  intros Hfail b. unfold project. subst b. split_and!.
  - destruct (failed_rfp_upload fetch h store log Hfail) as (h' & Hrun & Hr & Hb & Ha).
    eexists. split; [exact Hrun|]. simpl. by rewrite Hr, Hb, Ha.
  - destruct (failed_bid_upload fetch h store log Hfail) as (h' & Hrun & Hr & Hb & Ha).
    eexists. split; [exact Hrun|]. simpl. by rewrite Hr, Hb, Ha.
  - destruct (failed_analysis fetch h store log Hfail) as (h' & o & Hrun & Hr & Hb & Ha).
    do 2 eexists. split; [exact Hrun|]. simpl. by rewrite Hr, Hb, Ha.
Qed.

(** ** The invariant of the project *)

Import Invariant.

Section Served.
Context `{!Engine}.





End Served.

Section Preservation.
Context `{!Engine}.
#[local] Arguments mbind {_ _ _ _} _ _ /.
#[local] Arguments mret {_ _ _} _ /.





















End Preservation.


(** ** The arithmetic of the satisfaction ratio

    [SFdiv] and [SFmul] on numbers in the normal range return a number
    within half a unit in the last place of the exact quotient and product;
    this is what the ratio of two array lengths needs. *)

Section Binary64_facts.
Import Binary64.
Local Open Scope Z_scope.

Lemma iter_pos_nat {A} (f : A -> A) p x :
  SpecFloat.iter_pos f p x = Nat.iter (Pos.to_nat p) f x.
Proof.
  revert x. induction p as [p IH|p IH|]; intros x; cbn [SpecFloat.iter_pos].
  - rewrite !IH, Pos2Nat.inj_xI.
    replace (S (2 * Pos.to_nat p)) with (Pos.to_nat p + S (Pos.to_nat p))%nat by lia.
    rewrite Nat.iter_add, Nat.iter_succ_r. reflexivity.
  - rewrite !IH, Pos2Nat.inj_xO.
    replace (2 * Pos.to_nat p)%nat with (Pos.to_nat p + Pos.to_nat p)%nat by lia.
    rewrite Nat.iter_add. reflexivity.
  - reflexivity.
Qed.

Lemma shr_1_spec m r s :
  0 <= m ->
  shr_1 (Build_shr_record m r s) = Build_shr_record (Z.div2 m) (Z.odd m) (r || s).
Proof. destruct m as [|[p|p|]|]; intros; try lia; reflexivity. Qed.

Lemma located_shr_1 N D mrs :
  0 < D -> located N D mrs -> located N (2 * D) (shr_1 mrs).
Proof.
  intros HD. destruct mrs as [m r s]. unfold located. cbn [shr_m shr_r shr_s].
  intros (Hm & Hx & Hr & Hs). rewrite shr_1_spec by assumption.
  cbn [shr_m shr_r shr_s].
  pose proof (Z.div2_odd m) as Hdiv.
  set (h := Z.div2 m) in *. set (b := Z.odd m) in *. clearbody h b.
  assert (Hh : 0 <= h) by (destruct b; cbn in Hdiv; lia).
  assert (E : m * D = 2 * (h * D) + Z.b2z b * D) by (rewrite Hdiv at 1; ring).
  set (hD := h * D) in *.
  replace (h * (2 * D)) with (2 * hD) by (unfold hD; ring).
  replace ((h + 1) * (2 * D)) with (2 * hD + 2 * D) by (unfold hD; ring).
  replace ((2 * h + 1) * (2 * D)) with (4 * hD + 2 * D) by (unfold hD; ring).
  replace ((m + 1) * D) with (m * D + D) in Hx by ring.
  replace ((2 * m + 1) * D) with (2 * (m * D) + D) in Hr, Hs by ring.
  rewrite E in *. clear E Hdiv. clearbody hD.
  destruct b; cbn [Z.b2z] in *; rewrite ?Z.mul_1_l, ?Z.mul_0_l in *.
  - split; [assumption|]. split; [lia|]. split; [split; [lia|reflexivity]|].
    rewrite orb_true_iff, Hr, Hs. lia.
  - split; [assumption|]. split; [lia|]. split; [split; [discriminate|lia]|].
    rewrite orb_true_iff, Hr, Hs. lia.
Qed.

Lemma located_iter N D mrs (n : nat) :
  0 < D -> located N D mrs ->
  located N (2 ^ Z.of_nat n * D) (Nat.iter n shr_1 mrs).
Proof.
  intros HD H. induction n as [|n IH].
  - cbn [Nat.iter]. change (2 ^ Z.of_nat 0) with 1. rewrite Z.mul_1_l. exact H.
  - cbn [Nat.iter]. rewrite Nat2Z.inj_succ, Z.pow_succ_r, <- Z.mul_assoc by lia.
    apply located_shr_1; [|exact IH]. apply Z.mul_pos_pos; [|exact HD].
    apply Z.pow_pos_nonneg; lia.
Qed.

Lemma located_shr N D mrs e n :
  0 < D -> 0 <= n -> located N D mrs ->
  located N (2 ^ n * D) (shr mrs e n).1 /\ (shr mrs e n).2 = e + n.
Proof.
  intros HD Hn H. destruct n as [|p|p]; [| |lia]; cbn [shr fst snd].
  - change (2 ^ 0) with 1. rewrite Z.mul_1_l, Z.add_0_r. auto.
  - split; [|reflexivity]. rewrite iter_pos_nat.
    rewrite <- (positive_nat_Z p) at 1. by apply located_iter.
Qed.

Lemma digits2_pos_size p : digits2_pos p = Pos.size p.
Proof. induction p as [p IH|p IH|]; cbn; by rewrite ?IH. Qed.

Lemma Zdigits2_bounds m :
  0 < m -> 2 ^ (Zdigits2 m - 1) <= m < 2 ^ Zdigits2 m.
Proof.
  destruct m as [|p|p]; try lia. intros _. cbn [Zdigits2].
  rewrite digits2_pos_size.
  pose proof (Pos.size_gt p) as Hgt. pose proof (Pos.size_le p) as Hle.
  assert (Hpow : Z.pos (2 ^ Pos.size p) = 2 ^ Z.pos (Pos.size p))
    by (rewrite Pos2Z.inj_pow; reflexivity).
  assert (Hs : 2 ^ Z.pos (Pos.size p) = 2 * 2 ^ (Z.pos (Pos.size p) - 1)).
  { rewrite <- Z.pow_succ_r by lia. f_equal. lia. }
  lia.
Qed.

Lemma Zdigits2_unique m d :
  0 <= d -> 2 ^ d <= m < 2 ^ (d + 1) -> Zdigits2 m = d + 1.
Proof.
  intros Hd Hm. assert (Hpos : 0 < m) by (pose proof (Z.pow_pos_nonneg 2 d); lia).
  pose proof (Zdigits2_bounds m Hpos) as Hb.
  assert (Hd1 : 0 < Zdigits2 m) by (destruct m; try lia; cbn; lia).
  destruct (Z.lt_trichotomy (Zdigits2 m) (d + 1)) as [Hlt|[Heq|Hgt]]; [|exact Heq|].
  - assert (2 ^ Zdigits2 m <= 2 ^ d) by (apply Z.pow_le_mono_r; lia). lia.
  - assert (2 ^ (d + 1) <= 2 ^ (Zdigits2 m - 1)) by (apply Z.pow_le_mono_r; lia). lia.
Qed.

Lemma located_of_loc_exact m : 0 <= m -> located m 1 (shr_record_of_loc m loc_Exact).
Proof.
  intros Hm. unfold located. cbn [shr_record_of_loc shr_m shr_r shr_s].
  repeat split; try lia; try discriminate.
Qed.

Lemma round_nearest_even_located N D mrs :
  0 < D -> located N D mrs ->
  let m' := round_nearest_even (shr_m mrs) (loc_of_shr_record mrs) in
  (m' = shr_m mrs \/ m' = shr_m mrs + 1) /\
  (2 * m' - 1) * D <= 2 * N <= (2 * m' + 1) * D.
Proof.
  intros HD. destruct mrs as [m r s]. unfold located. cbn [shr_m shr_r shr_s].
  intros (Hm & Hx & Hr & Hs).
  assert (Hr' : r = false -> 2 * N < (2 * m + 1) * D)
    by (intros ->; destruct (Z.le_gt_cases ((2 * m + 1) * D) (2 * N)) as [H|H];
        [apply Hr in H; discriminate|lia]).
  assert (Hs' : s = false -> N = m * D \/ 2 * N = (2 * m + 1) * D)
    by (intros ->; destruct (Z.eq_dec N (m * D)) as [|H1]; [by left|];
        destruct (Z.eq_dec (2 * N) ((2 * m + 1) * D)) as [|H2]; [by right|];
        assert (false = true) by (apply Hs; split; assumption); discriminate).
  set (mD := m * D) in *.
  replace ((m + 1) * D) with (mD + D) in * by (unfold mD; ring).
  replace ((2 * m + 1) * D) with (2 * mD + D) in * by (unfold mD; ring).
  destruct r, s; cbn [loc_of_shr_record round_nearest_even].
  - split; [by right|]. replace ((2 * (m + 1) - 1) * D) with (2 * mD + D) by (unfold mD; ring).
    replace ((2 * (m + 1) + 1) * D) with (2 * mD + 3 * D) by (unfold mD; ring).
    destruct Hr as [Hr _]. specialize (Hr eq_refl). lia.
  - destruct (Hs' eq_refl) as [E|E]; [destruct Hr as [Hr _]; specialize (Hr eq_refl); lia|].
    destruct (Z.even m).
    + split; [by left|]. replace ((2 * m - 1) * D) with (2 * mD - D) by (unfold mD; ring).
      replace ((2 * m + 1) * D) with (2 * mD + D) by (unfold mD; ring). lia.
    + split; [by right|]. replace ((2 * (m + 1) - 1) * D) with (2 * mD + D) by (unfold mD; ring).
      replace ((2 * (m + 1) + 1) * D) with (2 * mD + 3 * D) by (unfold mD; ring). lia.
  - split; [by left|]. replace ((2 * m - 1) * D) with (2 * mD - D) by (unfold mD; ring).
    replace ((2 * m + 1) * D) with (2 * mD + D) by (unfold mD; ring).
    specialize (Hr' eq_refl). lia.
  - split; [by left|]. replace ((2 * m - 1) * D) with (2 * mD - D) by (unfold mD; ring).
    replace ((2 * m + 1) * D) with (2 * mD + D) by (unfold mD; ring).
    specialize (Hr' eq_refl). lia.
Qed.

Lemma fexp_normal d : -1074 <= d - 53 -> fexp 53 1024 d = d - 53.
Proof. intros. unfold fexp, emin. lia. Qed.

Lemma shr_fexp_normal N D m e l n :
  0 < D -> 0 <= n -> 2 ^ (52 + n) <= m < 2 ^ (53 + n) ->
  located N D (shr_record_of_loc m l) -> -1074 <= e + n ->
  located N (2 ^ n * D) (shr_fexp 53 1024 m e l).1 /\
  (shr_fexp 53 1024 m e l).2 = e + n.
Proof.
  intros HD Hn Hm Hloc He. unfold shr_fexp.
  rewrite (Zdigits2_unique m (52 + n)) by (replace (52 + n + 1) with (53 + n); lia).
  rewrite fexp_normal by lia.
  replace (52 + n + 1 + e - 53 - e) with n by lia.
  by apply located_shr.
Qed.

Lemma binary_round_aux_normal N D m e l n :
  0 < D -> 0 <= n -> 2 ^ (52 + n) <= m < 2 ^ (53 + n) ->
  located N D (shr_record_of_loc m l) -> -1074 <= e + n -> e + n < 971 ->
  exists mf ef m',
    binary_round_aux 53 1024 false m e l = S754_finite false mf ef /\
    2 ^ 52 <= Z.pos mf < 2 ^ 53 /\
    ((ef = e + n /\ m' = Z.pos mf) \/ (ef = e + n + 1 /\ m' = 2 * Z.pos mf)) /\
    (2 * m' - 1) * (2 ^ n * D) <= 2 * N <= (2 * m' + 1) * (2 ^ n * D) /\
    2 ^ 52 * (2 ^ n * D) <= N.
Proof.
  intros HD Hn Hm Hloc He He'.
  assert (Hpn : 0 < 2 ^ n) by (apply Z.pow_pos_nonneg; lia).
  assert (HDn : 0 < 2 ^ n * D) by (apply Z.mul_pos_pos; assumption).
  destruct (shr_fexp_normal N D m e l n HD Hn Hm Hloc He) as [Hl1 He1].
  unfold binary_round_aux.
  destruct (shr_fexp 53 1024 m e l) as [mrs1 e1]. cbn [fst snd] in Hl1, He1. subst e1.
  pose proof (round_nearest_even_located N _ mrs1 HDn Hl1) as [Hm' Hnear].
  cbn zeta in Hm', Hnear.
  set (m' := round_nearest_even (shr_m mrs1) (loc_of_shr_record mrs1)) in *.
  (* the shifted mantissa has 53 digits *)
  assert (Hlow : 2 ^ 52 * (2 ^ n * D) <= N).
  { destruct Hloc as (_ & Hx & _). rewrite Z.pow_add_r in Hm by lia.
    replace (shr_m (shr_record_of_loc m l)) with m in Hx by (by destruct l as [|[]]).
    transitivity (m * D); [|lia]. rewrite Z.mul_assoc.
    apply Z.mul_le_mono_nonneg_r; lia. }
  assert (Hm1 : 2 ^ 52 <= shr_m mrs1 < 2 ^ 53).
  { destruct Hl1 as (_ & Hx1 & _). destruct Hloc as (_ & Hx & _).
    replace (shr_m (shr_record_of_loc m l)) with m in Hx by (by destruct l as [|[]]).
    rewrite !Z.pow_add_r in Hm by lia. split.
    - assert (2 ^ 52 * (2 ^ n * D) < (shr_m mrs1 + 1) * (2 ^ n * D)) as H by lia.
      apply Z.mul_lt_mono_pos_r in H; lia.
    - assert (shr_m mrs1 * (2 ^ n * D) < (2 ^ 53 * 2 ^ n) * D) as H.
      { eapply Z.le_lt_trans; [apply Hx1|]. eapply Z.lt_le_trans; [apply Hx|].
        apply Z.mul_le_mono_nonneg_r; lia. }
      rewrite <- Z.mul_assoc in H. apply Z.mul_lt_mono_pos_r in H; lia. }
  clearbody m'. clear Hl1 Hloc.
  destruct (Z.eq_dec m' (2 ^ 53)) as [E|E].
  - subst m'. exists (2 ^ 52)%positive, (e + n + 1), (2 ^ 53).
    split; [|split; [lia|split; [right; split; reflexivity|auto]]].
    unfold shr_fexp. rewrite (Zdigits2_unique (2 ^ 53) 53) by lia.
    rewrite fexp_normal by lia. replace (53 + 1 + (e + n) - 53 - (e + n)) with 1 by lia.
    cbn [shr shr_record_of_loc SpecFloat.iter_pos]. rewrite shr_1_spec by lia.
    cbn [shr_m]. change (Z.div2 (2 ^ 53)) with (Z.pos (2 ^ 52)). cbn match.
    replace (e + n + 1 <=? 1024 - 53) with true by lia. reflexivity.
  - assert (Hm'' : 2 ^ 52 <= m' < 2 ^ 53) by lia.
    unfold shr_fexp. rewrite (Zdigits2_unique m' 52) by (change (52 + 1) with 53; lia).
    rewrite fexp_normal by lia. replace (52 + 1 + (e + n) - 53 - (e + n)) with 0 by lia.
    cbn [shr shr_record_of_loc shr_m]. destruct m' as [|p|p]; try lia.
    replace (e + n <=? 1024 - 53) with true by lia.
    exists p, (e + n), (Z.pos p).
    split; [reflexivity|]. split; [lia|]. split; [left; split; reflexivity|]. auto.
Qed.

Lemma pow2_pos e : (0 < pow2 e)%Q.
Proof. by apply Qpower_0_lt. Qed.

Lemma pow2_add a b : (pow2 (a + b) == pow2 a * pow2 b)%Q.
Proof. apply Qpower_plus. discriminate. Qed.

Lemma pow2_inject n : 0 <= n -> (inject_Z (2 ^ n) == pow2 n)%Q.
Proof. intros. by rewrite Zpower_Qpower. Qed.

Lemma rounded_value N D n e mf ef m' :
  0 < D -> 0 <= n ->
  ((ef = e + n /\ m' = Z.pos mf) \/ (ef = e + n + 1 /\ m' = 2 * Z.pos mf)) ->
  (2 * m' - 1) * (2 ^ n * D) <= 2 * N <= (2 * m' + 1) * (2 ^ n * D) ->
  2 ^ 52 * (2 ^ n * D) <= N ->
  let X := (inject_Z N / inject_Z D * pow2 e)%Q in
  (X * (1 - ulp_half) <= F2Q (Z.pos mf) ef <= X * (1 + ulp_half))%Q.
Proof.
  intros HD Hn Hcase [Hlo Hhi] Hlow X.
  assert (HDq : (0 < inject_Z D)%Q) by (by rewrite <- (Zlt_Qlt 0)).
  pose proof (pow2_pos n) as HA. pose proof (pow2_pos (e + n)) as HP.
  set (y := (inject_Z N / (pow2 n * inject_Z D))%Q).
  assert (HX : (X == y * pow2 (e + n))%Q).
  { unfold X, y. rewrite pow2_add. field. split; lra. }
  assert (Hv : (F2Q (Z.pos mf) ef == inject_Z m' * pow2 (e + n))%Q).
  { unfold F2Q. destruct Hcase as [[-> ->]|[-> ->]]; [reflexivity|].
    rewrite (pow2_add (e + n) 1), inject_Z_mult. change (pow2 1) with (2 # 1)%Q.
    change (inject_Z 2) with (2 # 1)%Q. ring. }
  assert (HN : (inject_Z N == y * (pow2 n * inject_Z D))%Q).
  { unfold y. field. split; lra. }
  rewrite Zle_Qle in Hlo, Hhi, Hlow. unfold Z.sub in Hlo.
  repeat (rewrite inject_Z_mult in Hlo || rewrite inject_Z_plus in Hlo
          || rewrite inject_Z_opp in Hlo).
  repeat (rewrite inject_Z_mult in Hhi || rewrite inject_Z_plus in Hhi).
  repeat (rewrite inject_Z_mult in Hlow).
  rewrite (pow2_inject n Hn), HN in Hlo, Hhi, Hlow.
  set (AD := (pow2 n * inject_Z D)%Q) in *.
  assert (HAD : (0 < AD)%Q) by (unfold AD; apply Qmult_lt_0_compat; assumption).
  change (inject_Z 2) with (2 # 1)%Q in *. change (inject_Z 1) with 1%Q in *.
  change (inject_Z (2 ^ 52)) with (4503599627370496 # 1)%Q in *.
  set (mq := inject_Z m') in *.
  assert (H1 : (2 * mq - 1 <= 2 * y)%Q).
  { apply (Qmult_lt_0_le_reg_r _ _ AD HAD). lra. }
  assert (H2 : (2 * y <= 2 * mq + 1)%Q).
  { apply (Qmult_lt_0_le_reg_r _ _ AD HAD). lra. }
  assert (H3 : ((4503599627370496 # 1) <= y)%Q).
  { apply (Qmult_lt_0_le_reg_r _ _ AD HAD). lra. }
  rewrite HX, Hv. unfold ulp_half.
  set (P := pow2 (e + n)) in *.
  assert (E1 : (y * P * (1 - (1 # 9007199254740992)) == (y * (1 - (1 # 9007199254740992))) * P)%Q) by ring.
  assert (E2 : (y * P * (1 + (1 # 9007199254740992)) == (y * (1 + (1 # 9007199254740992))) * P)%Q) by ring.
  rewrite E1, E2. split; apply Qmult_le_compat_r; lra.
Qed.

Lemma new_location_located q r d :
  0 < d -> 0 <= r < d -> 0 <= q ->
  located (q * d + r) d (shr_record_of_loc q (new_location d r)).
Proof.
  intros Hd Hr Hq. unfold new_location, new_location_even, new_location_odd.
  assert (Hpar : d = 2 * Z.div2 d + Z.b2z (Z.odd d)) by apply Z.div2_odd.
  rewrite <- Z.negb_odd. set (h := Z.div2 d) in *. clearbody h.
  destruct (Z.odd d); cbn [negb Z.b2z] in *;
    (destruct (Z.eqb_spec r 0) as [->|Hr0];
     [|destruct (Z.compare_spec (2 * r) d); try destruct (Z.compare_spec (2 * r + 1) d)]);
    unfold located; cbn [shr_record_of_loc shr_m shr_r shr_s];
    replace ((q + 1) * d) with (q * d + d) by ring;
    replace ((2 * q + 1) * d) with (2 * (q * d) + d) by ring;
    set (qd := q * d); clearbody qd;
    (split; [assumption|]); (split; [lia|]);
    (split; split; intros; try discriminate; try lia; try reflexivity).
Qed.

Lemma pow2_sub a b : (pow2 (a - b) == pow2 a / pow2 b)%Q.
Proof.
  pose proof (pow2_pos b) as Hb.
  assert (E : (pow2 a == pow2 (a - b) * pow2 b)%Q)
    by (rewrite <- pow2_add; by replace (a - b + b) with a by lia).
  rewrite E. field. lra.
Qed.

Lemma SFmul_normal mx ex my ey :
  normal mx -> normal my -> -1074 <= ex + ey + 52 -> ex + ey + 53 < 971 ->
  exists mz ez,
    SFmul 53 1024 (S754_finite false mx ex) (S754_finite false my ey)
      = S754_finite false mz ez /\
    normal mz /\ ex + ey + 52 <= ez <= ex + ey + 54 /\
    (F2Q (Z.pos mx) ex * F2Q (Z.pos my) ey * (1 - ulp_half) <= F2Q (Z.pos mz) ez
       <= F2Q (Z.pos mx) ex * F2Q (Z.pos my) ey * (1 + ulp_half))%Q.
Proof.
  unfold normal. intros Hx Hy Hlo Hhi. cbn [SFmul xorb].
  assert (Hm : 2 ^ 104 <= Z.pos (mx * my) < 2 ^ 106).
  { rewrite Pos2Z.inj_mul. change (2 ^ 104) with (2 ^ 52 * 2 ^ 52).
    change (2 ^ 106) with (2 ^ 53 * 2 ^ 53). split.
    - apply Z.mul_le_mono_nonneg; lia.
    - apply Z.mul_lt_mono_nonneg; lia. }
  assert (Hn : exists n, (n = 52 \/ n = 53) /\
                 2 ^ (52 + n) <= Z.pos (mx * my) < 2 ^ (53 + n)).
  { destruct (Z.lt_ge_cases (Z.pos (mx * my)) (2 ^ 105)).
    - exists 52. split; [by left|]. change (52 + 52) with 104. change (53 + 52) with 105. lia.
    - exists 53. split; [by right|]. change (52 + 53) with 105. change (53 + 53) with 106. lia. }
  destruct Hn as (n & Hn & Hmn).
  destruct (binary_round_aux_normal (Z.pos (mx * my)) 1 (Z.pos (mx * my)) (ex + ey)
              loc_Exact n) as (mz & ez & m' & Heq & Hmz & Hcase & Hnear & Hlow);
    [lia|lia|exact Hmn|apply located_of_loc_exact; lia|lia|lia|].
  exists mz, ez. split; [exact Heq|]. split; [exact Hmz|]. split; [lia|].
  pose proof (rounded_value _ 1 n (ex + ey) mz ez m' ltac:(lia) ltac:(lia) Hcase Hnear Hlow)
    as Hval.
  cbn zeta in Hval.
  assert (E : (inject_Z (Z.pos (mx * my)) / inject_Z 1 * pow2 (ex + ey)
               == F2Q (Z.pos mx) ex * F2Q (Z.pos my) ey)%Q).
  { unfold F2Q. rewrite Pos2Z.inj_mul, inject_Z_mult, pow2_add.
    change (inject_Z 1) with 1%Q. field. }
  rewrite E in Hval. exact Hval.
Qed.

Lemma SFdiv_core_normal mx ex my ey :
  normal mx -> normal my -> -1074 <= ex - ey - 53 ->
  SFdiv_core_binary 53 1024 (Z.pos mx) ex (Z.pos my) ey =
  (Z.pos mx * 2 ^ 53 / Z.pos my, ex - ey - 53,
   new_location (Z.pos my) ((Z.pos mx * 2 ^ 53) mod Z.pos my)).
Proof.
  unfold normal. intros Hx Hy He. unfold SFdiv_core_binary.
  rewrite (Zdigits2_unique (Z.pos mx) 52), (Zdigits2_unique (Z.pos my) 52)
    by (change (52 + 1) with 53; lia).
  replace (52 + 1 + ex - (52 + 1 + ey)) with (ex - ey) by lia.
  rewrite fexp_normal by lia. rewrite Z.min_l by lia.
  replace (ex - ey - (ex - ey - 53)) with 53 by lia. cbn match.
  rewrite Z.shiftl_mul_pow2 by lia.
  unfold Z.div, Z.modulo.
  by destruct (Z.div_eucl (Z.pos mx * 2 ^ 53) (Z.pos my)).
Qed.

Lemma SFdiv_normal mx ex my ey :
  normal mx -> normal my -> -1074 <= ex - ey - 53 -> ex - ey - 52 < 971 ->
  exists mz ez,
    SFdiv 53 1024 (S754_finite false mx ex) (S754_finite false my ey)
      = S754_finite false mz ez /\
    normal mz /\ ex - ey - 53 <= ez <= ex - ey - 51 /\
    (F2Q (Z.pos mx) ex / F2Q (Z.pos my) ey * (1 - ulp_half) <= F2Q (Z.pos mz) ez
       <= F2Q (Z.pos mx) ex / F2Q (Z.pos my) ey * (1 + ulp_half))%Q.
Proof.
  intros Hx Hy Hlo Hhi. cbn [SFdiv xorb].
  rewrite SFdiv_core_normal by assumption. unfold normal in *.
  set (N := Z.pos mx * 2 ^ 53). set (d := Z.pos my).
  pose proof (Z.div_mod N d ltac:(lia)) as Hdm.
  pose proof (Z.mod_pos_bound N d ltac:(lia)) as Hr.
  set (q := N / d) in *. set (r := N mod d) in *.
  assert (Hq : 2 ^ 52 <= q < 2 ^ 54).
  { split.
    - apply Z.div_le_lower_bound; [lia|]. unfold N, d.
      transitivity (2 ^ 53 * 2 ^ 52); [apply Z.mul_le_mono_nonneg; lia|].
      rewrite (Z.mul_comm (Z.pos mx)). apply Z.mul_le_mono_nonneg_l; lia.
    - apply Z.div_lt_upper_bound; [lia|]. unfold N, d.
      apply Z.lt_le_trans with (2 ^ 53 * 2 ^ 53); [apply Z.mul_lt_mono_pos_r; lia|].
      change (2 ^ 53 * 2 ^ 53) with (2 ^ 52 * 2 ^ 54).
      apply Z.mul_le_mono_nonneg_r; lia. }
  assert (Hn : exists n, (n = 0 \/ n = 1) /\ 2 ^ (52 + n) <= q < 2 ^ (53 + n)).
  { destruct (Z.lt_ge_cases q (2 ^ 53)).
    - exists 0. split; [by left|]. change (52 + 0) with 52. change (53 + 0) with 53. lia.
    - exists 1. split; [by right|]. change (52 + 1) with 53. change (53 + 1) with 54. lia. }
  destruct Hn as (n & Hn & Hqn).
  assert (Hloc : located N d (shr_record_of_loc q (new_location d r))).
  { rewrite Hdm at 1. rewrite (Z.mul_comm d q). apply new_location_located; lia. }
  destruct (binary_round_aux_normal N d q (ex - ey - 53) (new_location d r) n)
    as (mz & ez & m' & Heq & Hmz & Hcase & Hnear & Hlow);
    [lia|lia|exact Hqn|exact Hloc|lia|lia|].
  exists mz, ez. split; [exact Heq|]. split; [exact Hmz|]. split; [lia|].
  pose proof (rounded_value N d n (ex - ey - 53) mz ez m' ltac:(lia) ltac:(lia)
                Hcase Hnear Hlow) as Hval.
  cbn zeta in Hval.
  assert (E : (inject_Z N / inject_Z d * pow2 (ex - ey - 53)
               == F2Q (Z.pos mx) ex / F2Q (Z.pos my) ey)%Q).
  { unfold F2Q, N, d. rewrite inject_Z_mult, !pow2_sub.
    pose proof (pow2_pos ex). pose proof (pow2_pos ey).
    assert ((0 < inject_Z (Z.pos my))%Q) by (by rewrite <- (Zlt_Qlt 0)).
    change (inject_Z (2 ^ 53)) with (pow2 53). pose proof (pow2_pos 53).
    field. repeat split; lra. }
  rewrite E in Hval. exact Hval.
Qed.

Lemma binary_round_aux_exact m e :
  normal m -> -1074 <= e -> e <= 971 ->
  binary_round_aux 53 1024 false (Z.pos m) e loc_Exact = S754_finite false m e.
Proof.
  unfold normal. intros Hm Hlo Hhi. unfold binary_round_aux, shr_fexp.
  rewrite (Zdigits2_unique (Z.pos m) 52) by (change (52 + 1) with 53; lia).
  rewrite fexp_normal by lia. replace (52 + 1 + e - 53 - e) with 0 by lia.
  cbn [shr shr_record_of_loc shr_m loc_of_shr_record round_nearest_even].
  rewrite (Zdigits2_unique (Z.pos m) 52) by (change (52 + 1) with 53; lia).
  rewrite fexp_normal by lia. replace (52 + 1 + e - 53 - e) with 0 by lia.
  cbn [shr shr_m]. by replace (e <=? 1024 - 53) with true by lia.
Qed.

Lemma iter_xO p k : Z.pos (Pos.iter xO p k) = Z.pos p * 2 ^ Z.pos k.
Proof.
  rewrite Pos2Nat.inj_iter, <- (positive_nat_Z k).
  induction (Pos.to_nat k) as [|n IH].
  - cbn [nat_rect Z.of_nat]. rewrite Z.pow_0_r. lia.
  - cbn [nat_rect]. rewrite Pos2Z.inj_xO, IH, Nat2Z.inj_succ, Z.pow_succ_r by lia. ring.
Qed.

Lemma binary_normalize_pos z :
  0 < z < 2 ^ 53 ->
  exists m e,
    binary_normalize 53 1024 z 0 false = S754_finite false m e /\
    normal m /\ -52 <= e <= 0 /\ Z.pos m = z * 2 ^ (- e) /\
    2 ^ (52 + e) <= z < 2 ^ (53 + e).
Proof.
  intros Hz. destruct z as [|p|p]; try lia. cbn [binary_normalize].
  unfold binary_round.
  pose proof (Zdigits2_bounds (Z.pos p) ltac:(lia)) as Hd.
  cbn [Zdigits2] in Hd. set (d := Z.pos (digits2_pos p)) in *.
  assert (Hd53 : 1 <= d <= 53).
  { split; [unfold d; lia|].
    destruct (Z.le_gt_cases d 53) as [|Hgt]; [assumption|].
    assert (2 ^ 53 <= 2 ^ (d - 1)) by (apply Z.pow_le_mono_r; lia). lia. }
  rewrite Z.add_0_r, fexp_normal by lia. unfold shl_align.
  assert (Hb : 2 ^ (52 + (d - 53)) <= Z.pos p < 2 ^ (53 + (d - 53))).
  { replace (52 + (d - 53)) with (d - 1) by lia. replace (53 + (d - 53)) with d by lia.
    exact Hd. }
  destruct (d - 53 - 0) as [|k|k] eqn:Hk; try lia.
  - assert (Hn : normal p) by (unfold normal; replace d with 53 in Hd by lia; exact Hd).
    rewrite binary_round_aux_exact by (try assumption; lia).
    exists p, 0. replace (d - 53) with 0 in Hb by lia.
    split; [reflexivity|]. split; [exact Hn|]. split; [lia|]. split; [|exact Hb].
    change (2 ^ (- 0)) with 1. lia.
  - assert (Hk' : Z.pos k = 53 - d) by lia.
    assert (Hn : normal (Pos.iter xO p k)).
    { unfold normal. rewrite iter_xO, Hk'.
      assert (E1 : 2 ^ 52 = 2 ^ (d - 1) * 2 ^ (53 - d))
        by (rewrite <- Z.pow_add_r by lia; f_equal; lia).
      assert (E2 : 2 ^ 53 = 2 ^ d * 2 ^ (53 - d))
        by (rewrite <- Z.pow_add_r by lia; f_equal; lia).
      rewrite E1, E2.
      assert (0 < 2 ^ (53 - d)) by (apply Z.pow_pos_nonneg; lia).
      split; [apply Z.mul_le_mono_nonneg_r; lia|apply Z.mul_lt_mono_pos_r; lia]. }
    rewrite binary_round_aux_exact by (try assumption; lia).
    exists (Pos.iter xO p k), (d - 53).
    split; [reflexivity|]. split; [exact Hn|]. split; [lia|]. split; [|exact Hb].
    rewrite iter_xO, Hk'. do 2 f_equal. lia.
Qed.

Lemma F2Q_scaled z m e :
  e <= 0 -> Z.pos m = z * 2 ^ (- e) -> (F2Q (Z.pos m) e == inject_Z z)%Q.
Proof.
  intros He ->. unfold F2Q. rewrite inject_Z_mult, pow2_inject by lia.
  rewrite <- Qmult_assoc, <- pow2_add. replace (- e + e) with 0 by lia.
  change (pow2 0) with 1%Q. ring.
Qed.

(** [Math.round] of a positive number with fractional bits *)
Lemma round_half_up m p :
  let k := (2 * Z.pos m + 2 ^ Z.pos p) / 2 ^ (Z.pos p + 1) in
  0 <= k /\
  (inject_Z k <= F2Q (Z.pos m) (Z.neg p) + (1 # 2) /\
   F2Q (Z.pos m) (Z.neg p) + (1 # 2) < inject_Z k + 1)%Q.
Proof.
  intros k.
  assert (HP : 0 < 2 ^ Z.pos p) by (apply Z.pow_pos_nonneg; lia).
  assert (E : 2 ^ (Z.pos p + 1) = 2 * 2 ^ Z.pos p) by (rewrite Z.pow_add_r by lia; change (2 ^ 1) with 2; lia).
  pose proof (Z.div_mod (2 * Z.pos m + 2 ^ Z.pos p) (2 ^ (Z.pos p + 1)) ltac:(lia)) as Hdm.
  pose proof (Z.mod_pos_bound (2 * Z.pos m + 2 ^ Z.pos p) (2 ^ (Z.pos p + 1)) ltac:(lia)) as Hr.
  fold k in Hdm. set (r := _ mod _) in *. clearbody r k. rewrite E in *.
  assert (Hk : 0 <= k) by nia.
  split; [exact Hk|].
  assert (H1 : 2 * (k * 2 ^ Z.pos p) <= 2 * Z.pos m + 2 ^ Z.pos p) by lia.
  assert (H2 : 2 * Z.pos m + 2 ^ Z.pos p < 2 * (k * 2 ^ Z.pos p) + 2 * 2 ^ Z.pos p) by lia.
  rewrite Zle_Qle in H1. rewrite Zlt_Qlt in H2.
  repeat (rewrite inject_Z_mult in H1 || rewrite inject_Z_plus in H1).
  repeat (rewrite inject_Z_mult in H2 || rewrite inject_Z_plus in H2).
  rewrite (pow2_inject (Z.pos p)) in H1, H2 by lia.
  change (inject_Z 2) with (2 # 1)%Q in *.
  unfold F2Q. change (Z.neg p) with (- Z.pos p).
  assert (Ei : (pow2 (- Z.pos p) == / pow2 (Z.pos p))%Q).
  { replace (- Z.pos p) with (0 - Z.pos p) by lia. rewrite pow2_sub.
    change (pow2 0) with 1%Q. pose proof (pow2_pos (Z.pos p)). field. lra. }
  rewrite Ei. pose proof (pow2_pos (Z.pos p)) as HPq.
  set (P := pow2 (Z.pos p)) in *. set (mq := inject_Z (Z.pos m)) in *.
  set (kq := inject_Z k) in *.
  split.
  - apply (Qmult_lt_0_le_reg_r _ _ (2 * P)%Q); [lra|].
    assert (E2 : ((mq * / P + (1 # 2)) * (2 * P) == 2 * mq + P)%Q) by (field; lra).
    rewrite E2. lra.
  - apply (Qmult_lt_r _ _ (2 * P)%Q); [lra|].
    assert (E2 : ((mq * / P + (1 # 2)) * (2 * P) == 2 * mq + P)%Q) by (field; lra).
    rewrite E2. lra.
Qed.

Lemma nearest_from_bounds (s t k : Z) (q p : Q) :
  0 < s <= t -> t < 2 ^ 32 ->
  (inject_Z s / inject_Z t * (1 - ulp_half) <= q
     <= inject_Z s / inject_Z t * (1 + ulp_half))%Q ->
  (q * inject_Z 100 * (1 - ulp_half) <= p <= q * inject_Z 100 * (1 + ulp_half))%Q ->
  (inject_Z k <= p + (1 # 2) /\ p + (1 # 2) < inject_Z k + 1)%Q ->
  (2 * k - 1) * t <= 200 * s <= (2 * k + 1) * t.
Proof.
  intros Hs Ht [Hq1 Hq2] [Hp1 Hp2] [Hk1 Hk2].
  assert (Hsq : (0 < inject_Z s)%Q) by (rewrite <- (Zlt_Qlt 0); lia).
  assert (Htq : (0 < inject_Z t)%Q) by (rewrite <- (Zlt_Qlt 0); lia).
  assert (Hst : (inject_Z s <= inject_Z t)%Q) by (rewrite <- Zle_Qle; lia).
  assert (Ht32 : (inject_Z t < 4294967296 # 1)%Q)
    by (change (4294967296 # 1)%Q with (inject_Z (2 ^ 32)); by rewrite <- Zlt_Qlt).
  set (sq := inject_Z s) in *. set (tq := inject_Z t) in *. set (kq := inject_Z k) in *.
  set (a := (sq / tq)%Q) in *.
  assert (Ea : (a * tq == sq)%Q) by (unfold a; field; lra).
  assert (Ha0 : (0 <= a)%Q) by (unfold a; apply Qle_shift_div_l; lra).
  assert (Ha1 : (a <= 1)%Q) by (unfold a; apply Qle_shift_div_r; lra).
  unfold ulp_half in *. change (inject_Z 100) with (100 # 1)%Q in *.
  assert (Hup : (p <= a * (1 + (1 # 9007199254740992)) * (100 # 1)
                      * (1 + (1 # 9007199254740992)))%Q).
  { eapply Qle_trans; [exact Hp2|]. apply Qmult_le_compat_r; [|lra].
    apply Qmult_le_compat_r; [exact Hq2|lra]. }
  assert (Hlo : (a * (1 - (1 # 9007199254740992)) * (100 # 1)
                   * (1 - (1 # 9007199254740992)) <= p)%Q).
  { eapply Qle_trans; [|exact Hp1]. apply Qmult_le_compat_r; [|lra].
    apply Qmult_le_compat_r; [exact Hq1|lra]. }
  assert (H1 : (kq - (1 # 2) - (1 # 1000000000000) <= (100 # 1) * a)%Q) by lra.
  assert (H2 : ((100 # 1) * a < kq + (1 # 2) + (1 # 1000000000000))%Q) by lra.
  assert (H1t : ((kq - (1 # 2) - (1 # 1000000000000)) * tq <= (100 # 1) * a * tq)%Q)
    by (apply Qmult_le_compat_r; lra).
  assert (H2t : ((100 # 1) * a * tq < (kq + (1 # 2) + (1 # 1000000000000)) * tq)%Q)
    by (apply Qmult_lt_compat_r; lra).
  assert (E : ((100 # 1) * a * tq == (100 # 1) * sq)%Q) by (rewrite <- Ea; ring).
  rewrite E in H1t, H2t.
  assert (G1 : (inject_Z ((2 * k - 1) * t) < inject_Z (200 * s + 1))%Q).
  { unfold Z.sub. rewrite !inject_Z_mult, !inject_Z_plus, !inject_Z_mult.
    fold sq tq kq. change (inject_Z 2) with (2 # 1)%Q. change (inject_Z (-1)) with (- (1))%Q.
    change (inject_Z 200) with (200 # 1)%Q. change (inject_Z 1) with 1%Q.
    set (kt := (kq * tq)%Q) in *.
    assert (E1 : ((kq - (1 # 2) - (1 # 1000000000000)) * tq
                  == kt - (1 # 2) * tq - (1 # 1000000000000) * tq)%Q) by (unfold kt; ring).
    assert (E2 : (((2 # 1) * kq + - (1)) * tq == (2 # 1) * kt - tq)%Q) by (unfold kt; ring).
    rewrite E1 in H1t. rewrite E2. lra. }
  assert (G2 : (inject_Z (200 * s) < inject_Z ((2 * k + 1) * t + 1))%Q).
  { rewrite !inject_Z_plus, !inject_Z_mult, !inject_Z_plus, !inject_Z_mult.
    fold sq tq kq. change (inject_Z 2) with (2 # 1)%Q.
    change (inject_Z 200) with (200 # 1)%Q. change (inject_Z 1) with 1%Q.
    set (kt := (kq * tq)%Q) in *.
    assert (E1 : ((kq + (1 # 2) + (1 # 1000000000000)) * tq
                  == kt + (1 # 2) * tq + (1 # 1000000000000) * tq)%Q) by (unfold kt; ring).
    assert (E2 : (((2 # 1) * kq + 1) * tq == (2 # 1) * kt + tq)%Q) by (unfold kt; ring).
    rewrite E1 in H2t. rewrite E2. lra. }
  rewrite <- Zlt_Qlt in G1, G2. lia.
Qed.

Lemma to_Z_of_Z k : 0 <= k < 2 ^ 53 -> to_Z (of_Z k) = Some k.
Proof.
  intros Hk. destruct (Z.eq_dec k 0) as [->|Hk0]; [reflexivity|].
  destruct (binary_normalize_pos k ltac:(lia)) as (m & e & Heq & Hn & He & Hm & _).
  unfold of_Z, prec, emax. rewrite Heq. cbn [to_Z].
  destruct e as [|p|p]; try lia.
  - change (2 ^ (- 0)) with 1 in Hm. f_equal. lia.
  - change (- Z.neg p) with (Z.pos p) in Hm. change (Z.pow_pos 2 p) with (2 ^ Z.pos p).
    assert (0 < 2 ^ Z.pos p) by (apply Z.pow_pos_nonneg; lia).
    rewrite Hm, Z.mod_mul, Z.div_mul by lia. reflexivity.
Qed.

Lemma Number_toString_of_Z `{!Engine} k :
  0 <= k <= 100 -> Number_toString (of_Z k) = pretty k.
Proof.
  intros Hk. assert (Hk' : 0 <= k < 2 ^ 53) by lia.
  pose proof (to_Z_of_Z k Hk') as Hz. unfold Number_toString. rewrite Hz.
  replace (Z.abs k <? 10 ^ 21) with true by lia.
  unfold of_Z, prec, emax in *. destruct (Z.eq_dec k 0) as [->|Hk0]; [reflexivity|].
  destruct (binary_normalize_pos k ltac:(lia)) as (m & e & -> & _). reflexivity.
Qed.

Lemma percentage_nearest (satisfied total : nat) :
  (0 < total)%nat -> (satisfied <= total)%nat -> Z.of_nat total < 2 ^ 32 ->
  exists k : Z,
    AnalyzeAll.percentage satisfied total = of_Z k /\
    0 <= k <= 100 /\
    (2 * k - 1) * Z.of_nat total <= 200 * Z.of_nat satisfied
      <= (2 * k + 1) * Z.of_nat total.
Proof.
  intros Ht Hst Hbound. unfold AnalyzeAll.percentage, of_nat.
  set (s := Z.of_nat satisfied) in *. set (t := Z.of_nat total) in *.
  assert (Hs : 0 <= s <= t) by lia. assert (Ht' : 0 < t) by lia.
  clearbody s t. clear Ht Hst satisfied total.
  destruct (binary_normalize_pos t ltac:(lia)) as (mt & et & Ht & Hnt & Het & Hmt & Hbt).
  destruct (binary_normalize_pos 100 ltac:(lia)) as (mc & ec & Hc & Hnc & Hec & Hmc & Hbc).
  unfold of_Z, fdiv, fmul, prec, emax. rewrite Ht, Hc.
  destruct (Z.eq_dec s 0) as [->|Hs0].
  { exists 0. split; [reflexivity|]. lia. }
  destruct (binary_normalize_pos s ltac:(lia)) as (ms & es & Hse & Hns & Hes & Hms & Hbs).
  rewrite Hse.
  assert (Hes' : es <= -21).
  { destruct (Z.le_gt_cases es (-21)) as [|Hgt]; [assumption|].
    assert (2 ^ 32 <= 2 ^ (52 + es)) by (apply Z.pow_le_mono_r; lia). lia. }
  assert (Hec' : ec <= -46).
  { destruct (Z.le_gt_cases ec (-46)) as [|Hgt]; [assumption|].
    assert (2 ^ 7 <= 2 ^ (52 + ec)) by (apply Z.pow_le_mono_r; lia).
    change (2 ^ 7) with 128 in *. lia. }
  destruct (SFdiv_normal ms es mt et Hns Hnt ltac:(lia) ltac:(lia))
    as (mq & eq & Hdiv & Hnq & Heq & Hq).
  rewrite Hdiv.
  destruct (SFmul_normal mq eq mc ec Hnq Hnc ltac:(lia) ltac:(lia))
    as (mp & ep & Hmul & Hnp & Hep & Hp).
  rewrite Hmul.
  destruct ep as [|pp|pp]; try lia.
  unfold Math_round.
  change (Z.pow_pos 2 pp) with (2 ^ Z.pos pp).
  change (Z.pow_pos 2 (pp + 1)) with (2 ^ Z.pos (pp + 1)).
  rewrite Pos2Z.inj_add.
  destruct (round_half_up mp pp) as (Hk0 & Hk).
  set (k := (2 * Z.pos mp + 2 ^ Z.pos pp) / 2 ^ (Z.pos pp + 1)) in *.
  rewrite (F2Q_scaled s ms es), (F2Q_scaled t mt et) in Hq by (assumption || lia).
  rewrite (F2Q_scaled 100 mc ec) in Hp by (assumption || lia).
  pose proof (nearest_from_bounds s t k _ _ ltac:(lia) Hbound Hq Hp Hk) as Hnear.
  exists k. split; [reflexivity|]. split; [|exact Hnear].
  split; [exact Hk0|]. nia.
Qed.

End Binary64_facts.

(** ** The satisfaction ratio of a bid summary *)

Section Ratio.
Context `{!Engine}.

Lemma each_length {A B} (f : nat → A → outcome B) i l ys :
  each f i l = Ret ys → length ys = length l.
Proof.
  revert i ys. induction l as [|x l IH]; intros i ys; cbn [each].
  - by intros [= <-].
  - destruct (f i x) as [y|e]; [|discriminate]. cbn.
    destruct (each f (S i) l) as [zs|e] eqn:Hrest; [|discriminate]. cbn.
    intros [= <-]. cbn. f_equal. by eapply IH.
Qed.

(** C4, amended.  The ratio written into the summary of a bid is
    [Math.round((satisfied / total) * 100)] in binary64.  For a bid with at
    least one requirement this is an integer between 0 and 100 nearest to
    [100 * satisfied / total] (at a tie, one of the two nearest).  Nothing
    guards the division: for a bid without requirements the ratio is [NaN],
    and the summary reads ["0/0 (NaN%)"]. *)
Theorem ratio_is_rounded_and_division_is_unguarded
    (index : nat) (bid : value) (text : string) :
  AnalyzeAll.summary index bid = Ret text →
  ∃ rs flags title totalCost timeline details shown,
    let satisfied := length (List.filter (λ b : bool, b) flags) in
    let total := length rs in
    get bid "requirements" = Ret (VArr rs)
    ∧ each (λ _ r, truthy <$> get r "isSatisfied") 0 rs = Ret flags
    ∧ text = "Bid " +:+ pretty (index + 1)%nat +:+ ": " +:+ title +:+ LF
               +:+ "- Total Cost: $" +:+ totalCost +:+ LF
               +:+ "- Timeline: " +:+ timeline +:+ LF
               +:+ "- Requirements Satisfied: " +:+ pretty satisfied +:+ "/"
               +:+ pretty total +:+ " (" +:+ shown +:+ "%)" +:+ LF
               +:+ "- Requirements Details:" +:+ LF
               +:+ String.concat LF details
    ∧ (rs = [] → satisfied = 0%nat ∧ shown = "NaN")
    ∧ (rs ≠ [] → (Z.of_nat total < 2 ^ 32)%Z →
       ∃ k : Z,
         shown = pretty k ∧ (0 ≤ k ≤ 100)%Z
         ∧ ((2 * k - 1) * Z.of_nat total ≤ 200 * Z.of_nat satisfied
              ≤ (2 * k + 1) * Z.of_nat total)%Z).
Proof.
  unfold AnalyzeAll.summary. intros Hsum.
  destruct (get bid "requirements") as [v|e] eqn:Hget; [|discriminate].
  rewrite ret_bind in Hsum.
  destruct v as [| | | | |rs|]; try discriminate. cbn [elements] in Hsum.
  rewrite ret_bind in Hsum.
  destruct (each (λ _ r, truthy <$> get r "isSatisfied") 0 rs) as [flags|e] eqn:Hflags;
    [|discriminate].
  rewrite ret_bind in Hsum.
  destruct (get bid "title" ≫= ToString) as [title|e]; [|discriminate].
  rewrite ret_bind in Hsum.
  destruct (get bid "totalCost" ≫= toLocaleString) as [totalCost|e]; [|discriminate].
  rewrite ret_bind in Hsum.
  destruct (get bid "timeline" ≫= ToString) as [timeline|e]; [|discriminate].
  rewrite ret_bind in Hsum.
  match type of Hsum with
  | (?m ≫= _) = _ => destruct m as [details|e]; [|discriminate]
  end.
  rewrite ret_bind in Hsum. injection Hsum as <-.
  exists rs, flags, title, totalCost, timeline, details,
    (Number_toString
       (AnalyzeAll.percentage (length (List.filter (λ b : bool, b) flags)) (length rs))).
  cbn zeta. split; [reflexivity|]. split; [exact Hflags|]. split; [reflexivity|].
  pose proof (each_length _ _ _ _ Hflags) as Hlen.
  assert (Hle : (length (List.filter (λ b : bool, b) flags) ≤ length rs)%nat).
  { rewrite <- Hlen. clear. induction flags as [|[] flags IH]; simpl; lia. }
  split.
  - intros ->. destruct flags; [|discriminate]. split; reflexivity.
  - intros Hrs Hbound.
    destruct (percentage_nearest (length (List.filter (λ b : bool, b) flags)) (length rs))
      as (k & -> & Hk & Hnear);
      [destruct rs; [done|simpl; lia]|exact Hle|exact Hbound|].
    exists k. split; [by apply Number_toString_of_Z|]. split; assumption.
Qed.

End Ratio.

(** ** Examples *)


Section Examples.
#[local] Existing Instance sample_engine.

Lemma invalid_upload_witness :
  (∃ fr resp,
     ProcessRfp.POST (Sample.services (Ret ()))
       (Sample.upload Sample.notes) frame0 = (fr, Ret resp)
     ∧ status resp = 400%Z ∧ Service.ok resp = false ∧ calls fr = [])
  ∧ (∃ fr resp,
     ProcessBid.POST (Sample.services (Ret ()))
       (Sample.upload Sample.notes) frame0 = (fr, Ret resp)
     ∧ status resp = 400%Z ∧ Service.ok resp = false ∧ calls fr = []).
Proof.
  eapply (invalid_upload_is_rejected_before_staging
            (Sample.services (Ret ())) (Sample.upload Sample.notes) _ Sample.notes).
  - reflexivity.
  - reflexivity.
  - left. discriminate.
Defined.

Lemma staged_blob_witness :
  let env := Sample.services (Throw (Error "The blob does not exist")) in
  let run := ProcessRfp.POST env (Sample.upload Sample.pdf) frame0 in
  let url := "https://blob.example/rfp-1762100000000-document.pdf" in
  (∃ before after,
     calls run.1 = (before ++ Del url :: after)%list
     ∧ (Del url ∉ before)
     ∧ (∀ c, Generate c ∈ calls run.1 → Generate c ∈ before)
     ∧ (∀ ev, ev ∈ after → ev = cleanup_log))
  ∧ (∃ resp, run.2 = Ret resp)
  ∧ (∀ d, (ProcessRfp.POST (with_del env d)
             (Sample.upload Sample.pdf) frame0).2 = run.2).
Proof.
  intros env run url.
  apply (staged_blob_is_deleted_and_cleanup_is_silent
           ProcessRfp.POST env (Sample.upload Sample.pdf) run.1 run.2
           "rfp-1762100000000-document.pdf" url).
  - constructor.
  - apply surjective_pairing.
  - vm_compute. apply list_elem_of_here.
  - reflexivity.
  - discriminate.
Defined.

Lemma failed_stage_witness :
  let fetch := App.fetch Sample.offline in
  let b := at_rest Sample.loaded (∅ : gmap string text) [] in
  (∃ b', (handleRfpUpload fetch;; commit) b = (b', Ret ())
         ∧ project b' = project b ∧ localStorage b' = (∅ : gmap string text) ∧ appended b' = [])
  ∧ (∃ b', (handleBidUpload fetch;; commit) b = (b', Ret ())
         ∧ project b' = project b ∧ localStorage b' = (∅ : gmap string text) ∧ appended b' = [])
  ∧ (∃ b' o, (handleAnalyzeAll fetch;; commit) b = (b', o)
         ∧ project b' = project b ∧ localStorage b' = (∅ : gmap string text) ∧ appended b' = []).
Proof.
  intros fetch b.
  apply (failed_stage_leaves_the_project_untouched
           fetch Sample.loaded (∅ : gmap string text) []).
  intros req. reflexivity.
Defined.

Lemma ratio_witness :
  ∃ rs flags title totalCost timeline details shown,
    get (Bid.encode Sample.bid) "requirements" = Ret (VArr rs)
    ∧ each (λ _ r, truthy <$> get r "isSatisfied") 0 rs = Ret flags
    ∧ "Bid 1: BuildCo Proposal" +:+ LF
        +:+ "- Total Cost: $420000" +:+ LF
        +:+ "- Timeline: 4 months" +:+ LF
        +:+ "- Requirements Satisfied: 1/2 (50%)" +:+ LF
        +:+ "- Requirements Details:" +:+ LF
        +:+ "  • [Compliance] Must use licensed contractor - SATISFIED: Bid states BuildCo holds a state license" +:+ LF
        +:+ "  • [Financial] Budget under $500k - NOT SATISFIED: No total is committed to"
      = "Bid " +:+ pretty (0 + 1)%nat +:+ ": " +:+ title +:+ LF
          +:+ "- Total Cost: $" +:+ totalCost +:+ LF
          +:+ "- Timeline: " +:+ timeline +:+ LF
          +:+ "- Requirements Satisfied: "
          +:+ pretty (length (List.filter (λ b : bool, b) flags)) +:+ "/"
          +:+ pretty (length rs) +:+ " (" +:+ shown +:+ "%)" +:+ LF
          +:+ "- Requirements Details:" +:+ LF
          +:+ String.concat LF details
    ∧ (rs = [] → length (List.filter (λ b : bool, b) flags) = 0%nat ∧ shown = "NaN")
    ∧ (rs ≠ [] → (Z.of_nat (length rs) < 2 ^ 32)%Z →
       ∃ k : Z,
         shown = pretty k ∧ (0 ≤ k ≤ 100)%Z
         ∧ ((2 * k - 1) * Z.of_nat (length rs)
              ≤ 200 * Z.of_nat (length (List.filter (λ b : bool, b) flags))
              ≤ (2 * k + 1) * Z.of_nat (length rs))%Z).
Proof.
  apply (ratio_is_rounded_and_division_is_unguarded 0 (Bid.encode Sample.bid)).
  vm_compute. reflexivity.
Defined.

Lemma summary_without_requirements_shows_NaN :
  AnalyzeAll.percentage 0 0 = S754_nan
  ∧ AnalyzeAll.summary 0 (Bid.encode Sample.quote)
    = Ret ("Bid 1: Quick Quote" +:+ LF
             +:+ "- Total Cost: $15000" +:+ LF
             +:+ "- Timeline: 2 weeks" +:+ LF
             +:+ "- Requirements Satisfied: 0/0 (NaN%)" +:+ LF
             +:+ "- Requirements Details:" +:+ LF)
  ∧ calls (AnalyzeAll.POST (Sample.services (Ret ()))
             (Sample.comparison [Sample.quote]) frame0).1
    = [Generate
         (AnalyzeAll.analyze "Acme Office Renovation"
            ("1. [Compliance] Must use licensed contractor" +:+ LF
               +:+ "2. [Financial] Budget under $500k")
            ("Bid 1: Quick Quote" +:+ LF
               +:+ "- Total Cost: $15000" +:+ LF
               +:+ "- Timeline: 2 weeks" +:+ LF
               +:+ "- Requirements Satisfied: 0/0 (NaN%)" +:+ LF
               +:+ "- Requirements Details:" +:+ LF))].
Proof. split_and!; vm_compute; reflexivity. Qed.



End Examples.

